(** * text_classifier.py: a shallow embedding of [TextClassifier]

    The class wraps one text and layers four metrics over a lazy
    tokenize / tag / lemmatize pipeline.  The linguistic resources it calls
    (NLTK's sentence splitter, word tokenizer, tagger, WordNet lemmatizer and
    the CMU pronouncing dictionary) and Python's [re] module are interfaces
    here; Python's [float] is an interface with an IEEE binary64 instance
    and an exact rational one. *)

From Stdlib Require Import ZArith QArith Qround Qpower Floats Ascii String Lia.
From stdpp Require Import base option list gmap sets strings.

Local Open Scope string_scope.
Local Open Scope Z_scope.

(** ** Python [str] methods

    A [string] is a sequence of code points below 256 (the Latin-1 block of
    Unicode), on which [str.lower] maps into the block and keeps the
    length.  The predicates follow the Unicode character database as
    CPython consults it. *)
Module PyStr.

Definition ord (c : ascii) : N := N_of_ascii c.

Definition between (lo hi n : N) : bool := ((lo <=? n) && (n <=? hi))%N.

(** [Py_UNICODE_ISSPACE]: the characters [str.strip()] removes. *)
Definition isspace_char (c : ascii) : bool :=
  let n := ord c in
  between 9 13 n || between 28 32 n || (n =? 133)%N || (n =? 160)%N.

(** General categories Lu, Ll, Lt, Lm and Lo. *)
Definition isalpha_char (c : ascii) : bool :=
  let n := ord c in
  between 65 90 n || between 97 122 n
  || (n =? 170)%N || (n =? 181)%N || (n =? 186)%N
  || between 192 214 n || between 216 246 n || between 248 255 n.

(** Numeric type Digit or Decimal: 0-9 and the superscripts 1, 2, 3. *)
Definition isdigit_char (c : ascii) : bool :=
  let n := ord c in
  between 48 57 n || (n =? 178)%N || (n =? 179)%N || (n =? 185)%N.

Definition lower_char (c : ascii) : ascii :=
  let n := ord c in
  if between 65 90 n || between 192 214 n || between 216 222 n
  then ascii_of_N (n + 32) else c.

Fixpoint map_chars (f : ascii → ascii) (s : string) : string :=
  match s with
  | EmptyString => EmptyString
  | String c s' => String (f c) (map_chars f s')
  end.

(** [s.lower()] *)
Definition lower (s : string) : string := map_chars lower_char s.

Fixpoint all_chars (p : ascii → bool) (s : string) : bool :=
  match s with
  | EmptyString => true
  | String c s' => p c && all_chars p s'
  end.

(** [s.isalpha()]: every character is alphabetic and there is at least
    one character. *)
Definition isalpha (s : string) : bool :=
  match s with
  | EmptyString => false
  | _ => all_chars isalpha_char s
  end.

Fixpoint lstrip (s : string) : string :=
  match s with
  | EmptyString => EmptyString
  | String c s' => if isspace_char c then lstrip s' else s
  end.

Fixpoint rstrip (s : string) : string :=
  match s with
  | EmptyString => EmptyString
  | String c s' =>
      match rstrip s' with
      | EmptyString => if isspace_char c then EmptyString else String c EmptyString
      | r => String c r
      end
  end.

(** [s.strip()] *)
Definition strip (s : string) : string := rstrip (lstrip s).

(** Truth value of a [str]: non-empty. *)
Definition truthy (s : string) : bool :=
  match s with EmptyString => false | _ => true end.

(** [list(s)]: the one-character strings of [s]. *)
Fixpoint chars (s : string) : list string :=
  match s with
  | EmptyString => []
  | String c s' => String c EmptyString :: chars s'
  end.

(** [s[-1]]: the last character, [None] standing for the [IndexError]
    of an empty [s]. *)
Fixpoint last_char (s : string) : option string :=
  match s with
  | EmptyString => None
  | String c EmptyString => Some (String c EmptyString)
  | String _ s' => last_char s'
  end.

(** [s.isdigit()] *)
Definition isdigit (s : string) : bool :=
  match s with
  | EmptyString => false
  | _ => all_chars isdigit_char s
  end.

End PyStr.

(** ** Exceptions and results *)

Inductive exception : Type :=
  | ZeroDivisionError
  | IndexError
  | re_error (msg : string) (pattern : string).

Inductive result (A : Type) : Type :=
  | Ok (a : A)
  | Raise (e : exception).
Arguments Ok {A} a.
Arguments Raise {A} e.

#[export] Instance result_ret : MRet result := λ A a, Ok a.
#[export] Instance result_bind : MBind result := λ A B f m,
  match m with
  | Ok a => f a
  | Raise e => Raise e
  end.
#[export] Instance result_fmap : FMap result := λ A B f m,
  match m with
  | Ok a => Ok (f a)
  | Raise e => Raise e
  end.

(** A [for] loop that threads an accumulator and stops at the first
    exception. *)
Fixpoint for_each {A S : Type} (body : S → A → result S) (l : list A) (s : S)
  : result S :=
  match l with
  | [] => Ok s
  | x :: l' => s' ← body s x; for_each body l' s'
  end.

(** [len(l)] and [sum(l)] over Python integers. *)
Definition len {A : Type} (l : list A) : Z := Z.of_nat (length l).
Definition sum (l : list Z) : Z := fold_left Z.add l 0.

(** The exception a metric raises when it divides by a zero count, as
    opposed to an error the code would raise by a check of its own. *)
Definition arithmetic_trap (e : exception) : Prop := e = ZeroDivisionError.

(** ** Python [float]

    The operations the metrics use.  [truediv a b] is [a / b] on two
    integers with [b] non-zero, [float_lit q] the float a decimal literal
    denotes, [round_ndigits x n] is [round(x, n)]. *)
Class PyFloat (F : Type) : Type := {
  float_of_int : Z → F;
  float_lit : Q → F;
  fadd : F → F → F;
  fsub : F → F → F;
  fmul : F → F → F;
  truediv : Z → Z → F;
  round_ndigits : F → Z → F;
  fle : F → F → Prop;
}.

(** What the bound on a percentage needs of the arithmetic: rounding is
    monotone and exact on small integers.  Round-to-nearest IEEE arithmetic
    and Python's correctly rounded [round] have these properties; every
    comparison is stated with [fle], so that the two zeros of binary64 do
    not matter. *)
Class PyFloatOrder (F : Type) `{PyFloat F} : Prop := {
  fle_trans : ∀ x y z : F, fle x y → fle y z → fle x z;
  truediv_le_int : ∀ a b k : Z,
    0 < b → a ≤ k * b → fle (truediv a b) (float_of_int k);
  int_le_truediv : ∀ a b k : Z,
    0 < b → k * b ≤ a → fle (float_of_int k) (truediv a b);
  fmul_int_mono : ∀ (x y : F) (n : Z),
    0 < n ≤ 2 ^ 53 → fle x y → fle (fmul x (float_of_int n)) (fmul y (float_of_int n));
  fmul_int_exact_le : ∀ a b : Z,
    Z.abs a ≤ 2 ^ 53 → Z.abs b ≤ 2 ^ 53 → Z.abs (a * b) ≤ 2 ^ 53 →
    fle (fmul (float_of_int a) (float_of_int b)) (float_of_int (a * b));
  fmul_int_exact_ge : ∀ a b : Z,
    Z.abs a ≤ 2 ^ 53 → Z.abs b ≤ 2 ^ 53 → Z.abs (a * b) ≤ 2 ^ 53 →
    fle (float_of_int (a * b)) (fmul (float_of_int a) (float_of_int b));
  round_mono : ∀ (x y : F) (n : Z),
    fle x y → fle (round_ndigits x n) (round_ndigits y n);
  round_int_le : ∀ k n : Z,
    0 ≤ n → fle (round_ndigits (float_of_int k) n) (float_of_int k);
  round_int_ge : ∀ k n : Z,
    0 ≤ n → fle (float_of_int k) (round_ndigits (float_of_int k) n);
}.

(** [a / b] on integers: [ZeroDivisionError] when [b] is zero. *)
Definition int_truediv {F : Type} `{PyFloat F} (a b : Z) : result F :=
  if b =? 0 then Raise ZeroDivisionError else Ok (truediv a b).

(** ** The linguistic resources: [nltk] *)
Class Nltk : Type := {
  (** [nltk.sent_tokenize] *)
  sent_tokenize : string → list string;
  (** [nltk.word_tokenize] *)
  word_tokenize : string → list string;
  (** [nltk.pos_tag]: a tagged copy of a token sequence *)
  pos_tag : list string → list (string * string);
  (** [WordNetLemmatizer().lemmatize(word, pos)] *)
  WordNetLemmatizer : string → string → string;
  (** [cmudict.dict()]: word to pronunciation variants, each a list of
      phoneme codes *)
  cmudict : gmap string (list (list string));
}.

(** What the code relies on of these resources. *)
Definition splits_empty_text `{Nltk} : Prop := sent_tokenize "" = [].

Definition tagger_keeps_length `{Nltk} : Prop :=
  ∀ tokens, length (pos_tag tokens) = length tokens.

Definition tagger_keeps_words `{Nltk} : Prop :=
  ∀ tokens, map fst (pos_tag tokens) = tokens.

(** Every entry of the dictionary has a first variant, and no phoneme
    code is the empty string. *)
Definition entry_well_formed (variants : list (list string)) : bool :=
  match variants with
  | [] => false
  | first :: _ => forallb PyStr.truthy first
  end.

Definition dict_well_formed (d : gmap string (list (list string))) : Prop :=
  map_Forall (λ _ variants, entry_well_formed variants = true) d.

(** ** Regular expressions: [re] *)
Inductive re_flag : Type := IGNORECASE.

#[export] Instance re_flag_eq_dec : EqDecision re_flag.
Proof. solve_decision. Defined.

Class Re : Type := {
  Pattern : Type;
  Match : Type;
  (** [re.compile(pattern, flags)]: raises [re.error] on a pattern that
      is not well formed *)
  re_compile : string → list re_flag → result Pattern;
  (** [Pattern.search(string)]: a match object, or [None] *)
  Pattern_search : Pattern → string → option Match;
}.

(** [re.search(pattern, string, flags)] compiles and searches. *)
Definition re_search `{Re} (pattern text : string) (flags : list re_flag)
  : result (option Match) :=
  p ← re_compile pattern flags; Ok (Pattern_search p text).

(** A compile error names the pattern that was handed in. *)
Definition compile_errors_name_pattern `{Re} : Prop :=
  ∀ pattern flags e, re_compile pattern flags = Raise e →
    ∃ msg, e = re_error msg pattern.

(** [bool(m)] for the result of a search: a match object is true, [None]
    is false. *)
Definition bool_of_match {M : Type} (m : option M) : bool :=
  match m with Some _ => true | None => false end.

(** ** The class *)

(** [p_dict = cmudict.dict()], loaded once at import. *)
Definition p_dict `{Nltk} : gmap string (list (list string)) := cmudict.

Record TextClassifier : Type := {
  __text : string;
  __lemmatizer : string → string → string;
  __vowels : gset string;
}.

(** [filter(p, l)] forced by [list(...)], with a predicate that can
    raise. *)
Fixpoint filter_raising {A : Type} (p : A → result bool) (l : list A)
  : result (list A) :=
  match l with
  | [] => Ok []
  | x :: l' =>
      b ← p x;
      r ← filter_raising p l';
      Ok (if b : bool then x :: r else r)
  end.

(** [l[0]] and [s[-1]] *)
Definition first_item {A : Type} (l : list A) : result A :=
  match l with
  | [] => Raise IndexError
  | x :: _ => Ok x
  end.

Definition last_item (s : string) : result string :=
  match PyStr.last_char s with
  | None => Raise IndexError
  | Some c => Ok c
  end.

(** A token of a view is a word, or a (word, tag) pair in the tagged
    views; a view yields sentences or tokens. *)
Definition token (tagged : bool) : Type :=
  if tagged then (string * string)%type else string.

Definition yielded (is_sent tagged : bool) : Type :=
  if is_sent then list (token tagged) else token tagged.

Section Methods.
Context {F : Type} `{PyFloat F} `{Nltk} `{Re}.

Definition __init__ (text : string) : TextClassifier :=
  {| __text := text;
     __lemmatizer := WordNetLemmatizer;
     __vowels := {[ "a"; "e"; "i"; "o"; "u"; "y" ]} |}.

Definition __lemmatize (self : TextClassifier) (word : string) : string :=
  let lemma := __lemmatizer self word "v" in
  if bool_decide (lemma = word) then __lemmatizer self word "n" else lemma.

Definition __preprocess_text (self : TextClassifier)
    (is_sent tagged lemmatized : bool) : list (yielded is_sent tagged) :=
  flat_map (λ sent,
    let tokenized_sent : list string :=
      map PyStr.strip
        (List.filter (λ word, PyStr.truthy (PyStr.strip word)) (word_tokenize sent)) in
    let tokenized_sent : list (token tagged) :=
      match tagged return list (token tagged) with
      | true =>
          let tokenized_sent := pos_tag tokenized_sent in
          if lemmatized
          then map (λ x, (__lemmatize self x.1, x.2)) tokenized_sent
          else tokenized_sent
      | false =>
          if lemmatized
          then map (__lemmatize self) tokenized_sent
          else tokenized_sent
      end in
    match is_sent return list (yielded is_sent tagged) with
    | true => [tokenized_sent]
    | false => tokenized_sent
    end) (sent_tokenize (__text self)).

Definition sents (self : TextClassifier) (lemmatized : bool)
  : list (list string) :=
  __preprocess_text self true false lemmatized.

Definition tagged_sents (self : TextClassifier) (lemmatized : bool)
  : list (list (string * string)) :=
  __preprocess_text self true true lemmatized.

Definition words (self : TextClassifier) (lemmatized : bool) : list string :=
  __preprocess_text self false false lemmatized.

Definition tagged_words (self : TextClassifier) (lemmatized : bool)
  : list (string * string) :=
  __preprocess_text self false true lemmatized.

Definition has_peculiar_expression (self : TextClassifier) (expression : string)
  : result bool :=
  m ← re_search ("" +:+ expression +:+ "") (__text self) [IGNORECASE];
  Ok (bool_of_match m).

Definition count_syllables (self : TextClassifier) (word : string) : result Z :=
  let word := PyStr.lower word in
  iterator ←
    match p_dict !! word with
    | Some variants =>
        first ← first_item variants;
        filter_raising
          (λ phone, c ← last_item phone; Ok (PyStr.isdigit c)) first
    | None =>
        Ok (List.filter (λ letter, bool_decide (letter ∈ __vowels self))
              (PyStr.chars word))
    end;
  Ok (len iterator).

Definition calculate_sentence_reading_ease (self : TextClassifier) : result F :=
  for_each (λ reading_ease sent,
      let words := List.filter PyStr.isalpha sent in
      match words with
      | [] => Ok reading_ease
      | _ :: _ =>
          syllables ← mapM (count_syllables self) words;
          per_word ← int_truediv (sum syllables) (len words);
          Ok (fadd reading_ease
                (fsub (fsub (float_lit 206.835)
                            (fmul (float_lit 1.015) (float_of_int (len words))))
                      (fmul (float_lit 84.6) per_word)))
      end)
    (sents self false) (float_lit 0.0).

Definition calculate_lexical_density_by_tags (self : TextClassifier)
    (tags_to_search : gset string) : result F :=
  let total_tags :=
    len (List.filter (λ '(word, tag), bool_decide (tag ∈ tags_to_search))
           (tagged_words self false)) in
  let total_words := len (tagged_words self false) in
  ratio ← int_truediv total_tags total_words;
  Ok (round_ndigits (fmul ratio (float_of_int 100)) 3).

Definition calculate_words_frequency (self : TextClassifier)
    (words_to_search : gset string) : result F :=
  let total_peculiar_words :=
    len (List.filter (λ word, bool_decide (word ∈ words_to_search))
           (words self false)) in
  let total_words := len (words self false) in
  ratio ← int_truediv total_peculiar_words total_words;
  Ok (round_ndigits (fmul ratio (float_of_int 1000)) 3).

Definition calculate_type_token_ratio (self : TextClassifier) : result F :=
  let word_list := map PyStr.lower (words self true) in
  int_truediv (len (elements (list_to_set word_list : gset string)))
              (len word_list).

End Methods.

(** ** Two arithmetics *)

(** Rounding a rational to the nearest integer, ties to the even one. *)
Definition round_half_even (q : Q) : Z :=
  let f := Qfloor q in
  match Qcompare (q - inject_Z f) (1 # 2) with
  | Lt => f
  | Gt => f + 1
  | Eq => if Z.even f then f else f + 1
  end.

(** [x] rounded to a multiple of [10 ^ (- n)]. *)
Definition round_decimal (x : Q) (n : Z) : Q :=
  (inject_Z (round_half_even (x * inject_Z 10 ^ n)) / inject_Z 10 ^ n)%Q.

(** IEEE 754 binary64 with round-to-nearest-even, as CPython's [float]:
    integer conversion, integer division and decimal literals are correctly
    rounded, and [round(x, n)] rounds the exact value of [x] to [n]
    decimals and returns the nearest float. *)
Module Binary64.

Definition exact_int (z : Z) : spec_float :=
  match z with
  | Z0 => S754_zero false
  | Zpos p => S754_finite false p 0
  | Zneg p => S754_finite true p 0
  end.

Definition of_int (z : Z) : float :=
  SF2Prim (binary_normalize prec emax z 0 false).

Definition div_int (a b : Z) : float :=
  SF2Prim (SFdiv prec emax (exact_int a) (exact_int b)).

Definition literal (q : Q) : float := div_int (Qnum q) (Zpos (Qden q)).

Definition round (x : float) (n : Z) : float :=
  match Prim2SF x with
  | S754_finite s m e =>
      let r := Qred (round_decimal (inject_Z (Zpos m) * inject_Z 2 ^ e) n) in
      match Qnum r with
      | Z0 => SF2Prim (S754_zero s)
      | k => div_int (if s then - k else k) (Zpos (Qden r))
      end
  | _ => x
  end.

#[export] Instance binary64 : PyFloat float := {|
  float_of_int := of_int;
  float_lit := literal;
  fadd := PrimFloat.add;
  fsub := PrimFloat.sub;
  fmul := PrimFloat.mul;
  truediv := div_int;
  round_ndigits := round;
  fle := λ x y, PrimFloat.leb x y = true;
|}.

End Binary64.

(** Exact rational arithmetic: no operation rounds, except [round]. *)
Module Exact.

#[export] Instance exact : PyFloat Q := {|
  float_of_int := inject_Z;
  float_lit := λ q, q;
  fadd := Qplus;
  fsub := Qminus;
  fmul := Qmult;
  truediv := λ a b, (inject_Z a / inject_Z b)%Q;
  round_ndigits := round_decimal;
  fle := Qle;
|}.

End Exact.

(** ** Fixture resources

    Small stand-ins for the linguistic resources, enough to run the
    methods on short English texts: sentences end at [.], [!] or [?],
    tokens are runs of letters, digits and apostrophes or single
    punctuation marks, and the tagger, the lemmatizer and the pronouncing
    dictionary know a handful of words. *)
Module Fixture.

Definition snoc (s : string) (c : ascii) : string := s +:+ String c EmptyString.

Definition flush (cur : string) : list string :=
  if PyStr.truthy (PyStr.strip cur) then [PyStr.strip cur] else [].

Definition ends_sentence (c : ascii) : bool :=
  (Ascii.eqb c "." || Ascii.eqb c "!" || Ascii.eqb c "?")%char.

Fixpoint sentences_from (s cur : string) : list string :=
  match s with
  | EmptyString => flush cur
  | String c s' =>
      if ends_sentence c
      then flush (snoc cur c) ++ sentences_from s' EmptyString
      else sentences_from s' (snoc cur c)
  end.

Definition in_word (c : ascii) : bool :=
  PyStr.isalpha_char c || PyStr.isdigit_char c || Ascii.eqb c "'"%char.

Fixpoint tokens_from (s cur : string) : list string :=
  match s with
  | EmptyString => flush cur
  | String c s' =>
      if PyStr.isspace_char c then flush cur ++ tokens_from s' EmptyString
      else if in_word c then tokens_from s' (snoc cur c)
      else flush cur ++ String c EmptyString :: tokens_from s' EmptyString
  end.

Definition lexicon : gmap string string :=
  list_to_map
    [ ("the", "DT"); ("a", "DT"); ("cats", "NNS"); ("dogs", "NNS");
      ("cat", "NN"); ("dog", "NN"); ("are", "VBP"); ("is", "VBZ");
      ("run", "VBP"); ("jump", "VBP"); ("sat", "VBD");
      ("running", "VBG"); ("quickly", "RB"); ("big", "JJ");
      (".", "."); (",", ","); ("!", "."); ("?", ".") ].

Definition tag_of (word : string) : string :=
  default "NN" (lexicon !! PyStr.lower word).

Definition verbs : gmap string string :=
  list_to_map
    [ ("are", "be"); ("is", "be"); ("running", "run"); ("sat", "sit");
      ("jumps", "jump"); ("runs", "run") ].

Definition nouns : gmap string string :=
  list_to_map [ ("cats", "cat"); ("dogs", "dog"); ("runs", "run") ].

Definition lemmatize (word pos : string) : string :=
  if String.eqb pos "v" then default word (verbs !! word)
  else if String.eqb pos "n" then default word (nouns !! word)
  else word.

Definition pronunciations : gmap string (list (list string)) :=
  list_to_map
    [ ("cat", [["K"; "AE1"; "T"]]);
      ("cats", [["K"; "AE1"; "T"; "S"]]);
      ("banana", [["B"; "AH0"; "N"; "AE1"; "N"; "AH0"]]);
      ("the", [["DH"; "AH0"]; ["DH"; "AH1"]; ["DH"; "IY0"]]);
      ("are", [["AA1"; "R"]; ["ER0"]]);
      ("running", [["R"; "AH1"; "N"; "IH0"; "NG"]]);
      ("sat", [["S"; "AE1"; "T"]]);
      ("hello", [["HH"; "AH0"; "L"; "OW1"]; ["HH"; "EH0"; "L"; "OW1"]]) ].

#[export] Instance nltk : Nltk := {|
  sent_tokenize := λ text, sentences_from text EmptyString;
  word_tokenize := λ sent, tokens_from sent EmptyString;
  pos_tag := λ tokens, map (λ word, (word, tag_of word)) tokens;
  WordNetLemmatizer := lemmatize;
  cmudict := pronunciations;
|}.

(** The same resources with a dictionary that has an entry without
    variants and an entry with an empty phoneme code. *)
Definition malformed_pronunciations : gmap string (list (list string)) :=
  <["ghost" := []]> (<["hm" := [["HH"; ""; "M"]]]> pronunciations).

Definition nltk_with_malformed_dict : Nltk := {|
  sent_tokenize := λ text, sentences_from text EmptyString;
  word_tokenize := λ sent, tokens_from sent EmptyString;
  pos_tag := λ tokens, map (λ word, (word, tag_of word)) tokens;
  WordNetLemmatizer := lemmatize;
  cmudict := malformed_pronunciations;
|}.

End Fixture.

(** ** A small regular-expression engine

    A fragment of the dialect of [re]: literal characters, [.], the
    postfix operators [*], [+] and [?], alternation, groups and escaped
    punctuation.  A pattern outside the fragment, or one that is not well
    formed, is refused with an [re_error]. *)
Module SmallRe.

Inductive regex : Type :=
  | Never
  | Empty
  | Chr (c : ascii)
  | AnyChar
  | Cat (r s : regex)
  | Alt (r s : regex)
  | Star (r : regex).

Record compiled : Type := { body : regex; ignore_case : bool }.

(** *** Parsing *)

Definition is_postfix (c : ascii) : bool :=
  (Ascii.eqb c "*" || Ascii.eqb c "+" || Ascii.eqb c "?")%char.

Definition unsupported (c : ascii) : bool :=
  (Ascii.eqb c "[" || Ascii.eqb c "]" || Ascii.eqb c "{" || Ascii.eqb c "}"
   || Ascii.eqb c "^" || Ascii.eqb c "$")%char.

Definition postfix (a : regex) (rest : list ascii) : regex * list ascii :=
  match rest with
  | c :: rest' =>
      if Ascii.eqb c "*" then (Star a, rest')
      else if Ascii.eqb c "+" then (Cat a (Star a), rest')
      else if Ascii.eqb c "?" then (Alt Empty a, rest')
      else (a, rest)
  | [] => (a, rest)
  end.

Definition parsed : Type := result (regex * list ascii).

Fixpoint parse_alt (fuel : nat) (pattern : string) (s : list ascii) : parsed :=
  match fuel with
  | O => Raise (re_error "pattern too deep" pattern)
  | S fuel =>
      '(r, rest) ← parse_seq fuel pattern s Empty;
      match rest with
      | c :: rest' =>
          if Ascii.eqb c "|"
          then '(r', rest'') ← parse_alt fuel pattern rest';
               Ok (Alt r r', rest'')
          else Ok (r, rest)
      | [] => Ok (r, rest)
      end
  end
with parse_seq (fuel : nat) (pattern : string) (s : list ascii) (acc : regex)
  : parsed :=
  match fuel with
  | O => Raise (re_error "pattern too deep" pattern)
  | S fuel =>
      match s with
      | [] => Ok (acc, s)
      | c :: _ =>
          if (Ascii.eqb c ")" || Ascii.eqb c "|")%char then Ok (acc, s)
          else
            '(a, rest) ← parse_atom fuel pattern s;
            let '(a', rest') := postfix a rest in
            match rest' with
            | c' :: _ =>
                if (Ascii.eqb c' "*" || Ascii.eqb c' "+")%char
                then Raise (re_error "multiple repeat" pattern)
                else parse_seq fuel pattern rest' (Cat acc a')
            | [] => parse_seq fuel pattern rest' (Cat acc a')
            end
      end
  end
with parse_atom (fuel : nat) (pattern : string) (s : list ascii) : parsed :=
  match fuel with
  | O => Raise (re_error "pattern too deep" pattern)
  | S fuel =>
      match s with
      | [] => Raise (re_error "unexpected end of pattern" pattern)
      | c :: rest =>
          if Ascii.eqb c "("
          then '(r, rest') ← parse_alt fuel pattern rest;
               match rest' with
               | c' :: rest'' =>
                   if Ascii.eqb c' ")" then Ok (r, rest'')
                   else Raise (re_error "missing ), unterminated subpattern"
                                 pattern)
               | [] => Raise (re_error "missing ), unterminated subpattern"
                                pattern)
               end
          else if Ascii.eqb c "\"
          then match rest with
               | [] => Raise (re_error "bad escape (end of pattern)" pattern)
               | c' :: rest' =>
                   if PyStr.isalpha_char c' || PyStr.isdigit_char c'
                   then Raise (re_error "unsupported escape" pattern)
                   else Ok (Chr c', rest')
               end
          else if Ascii.eqb c "." then Ok (AnyChar, rest)
          else if is_postfix c then Raise (re_error "nothing to repeat" pattern)
          else if unsupported c then Raise (re_error "unsupported syntax" pattern)
          else Ok (Chr c, rest)
      end
  end.

Definition compile (pattern : string) (flags : list re_flag) : result compiled :=
  let s := list_ascii_of_string pattern in
  '(r, rest) ← parse_alt (4 * length s + 4)%nat pattern s;
  match rest with
  | [] => Ok {| body := r;
                ignore_case := bool_decide (IGNORECASE ∈ flags) |}
  | _ => Raise (re_error "unbalanced parenthesis" pattern)
  end.

(** *** Matching by derivatives *)

Definition same_char (ci : bool) (a b : ascii) : bool :=
  if ci then Ascii.eqb (PyStr.lower_char a) (PyStr.lower_char b)
  else Ascii.eqb a b.

Fixpoint nullable (r : regex) : bool :=
  match r with
  | Never | Chr _ | AnyChar => false
  | Empty | Star _ => true
  | Cat r s => nullable r && nullable s
  | Alt r s => nullable r || nullable s
  end.

Fixpoint deriv (ci : bool) (c : ascii) (r : regex) : regex :=
  match r with
  | Never | Empty => Never
  | Chr a => if same_char ci a c then Empty else Never
  | AnyChar => if Ascii.eqb c "010" then Never else Empty
  | Cat r s =>
      if nullable r
      then Alt (Cat (deriv ci c r) s) (deriv ci c s)
      else Cat (deriv ci c r) s
  | Alt r s => Alt (deriv ci c r) (deriv ci c s)
  | Star r => Cat (deriv ci c r) (Star r)
  end.

(** The end of the longest match of [r] that starts at [pos]. *)
Fixpoint match_end (ci : bool) (r : regex) (s : list ascii) (pos : nat)
  : option nat :=
  let here := if nullable r then Some pos else None in
  match s with
  | [] => here
  | c :: s' =>
      match match_end ci (deriv ci c r) s' (S pos) with
      | Some e => Some e
      | None => here
      end
  end.

(** The leftmost match. *)
Fixpoint search_from (ci : bool) (r : regex) (s : list ascii) (start : nat)
  : option (nat * nat) :=
  match match_end ci r s start with
  | Some e => Some (start, e)
  | None =>
      match s with
      | [] => None
      | _ :: s' => search_from ci r s' (S start)
      end
  end.

Definition search (p : compiled) (text : string) : option (nat * nat) :=
  search_from (ignore_case p) (body p) (list_ascii_of_string text) 0.

#[export] Instance re : Re := {|
  Pattern := compiled;
  Match := (nat * nat)%type;
  re_compile := compile;
  Pattern_search := search;
|}.

End SmallRe.

(** ** The specification's reading of the reading-ease score

    Written from the specification, to be compared with the loop of
    [calculate_sentence_reading_ease]. *)
Section ReadingEaseSpec.
Context {F : Type} `{PyFloat F} `{Nltk} `{Re}.

(** [206.835 - 1.015 * n - 84.6 * (syllables / n)] for a sentence of
    [n] alphabetic tokens. *)
Definition flesch (n syllable_total : Z) : F :=
  fsub (fsub (float_lit 206.835) (fmul (float_lit 1.015) (float_of_int n)))
       (fmul (float_lit 84.6) (truediv syllable_total n)).

Definition sentence_score (self : TextClassifier) (alphabetic : list string)
  : result F :=
  syllables ← mapM (count_syllables self) alphabetic;
  Ok (flesch (len alphabetic) (sum syllables)).

Definition has_tokens (tokens : list string) : bool :=
  match tokens with [] => false | _ :: _ => true end.

(** The scores of the sentences that have an alphabetic token, added up
    from [0.0] in the order of the sentences. *)
Definition summed_sentence_scores (self : TextClassifier) : result F :=
  let alphabetic := map (List.filter PyStr.isalpha) (sents self false) in
  scores ← mapM (sentence_score self) (List.filter has_tokens alphabetic);
  Ok (fold_left fadd scores (float_lit 0.0)).

End ReadingEaseSpec.

(** What the specification counts for a word of the dictionary and for a
    word outside it. *)
Definition ends_with_digit (phone : string) : bool :=
  match PyStr.last_char phone with
  | Some c => PyStr.isdigit c
  | None => false
  end.

Definition is_vowel (letter : string) : bool :=
  bool_decide (letter ∈ ({[ "a"; "e"; "i"; "o"; "u"; "y" ]} : gset string)).

(** ** The instance as mutable state

    The methods once more, as Python runs them on an object: each one is
    a program over the instance, reading attributes with [getattr] and
    assigning them with the [setattr]s, and a view returns a generator
    whose body runs when the generator is consumed.  The views above are
    what these programs compute. *)
Module Stateful.

(** A method runs on the instance and hands back its value and the
    instance as the run leaves it. *)
Definition method (A : Type) : Type := TextClassifier → A * TextClassifier.

#[global] Instance method_ret : MRet method := λ A a self, (a, self).
#[global] Instance method_bind : MBind method := λ A B f m self,
  let '(a, self) := m self in f a self.

(** [self.attr] and [self.attr = value] *)
Definition getattr {A : Type} (attr : TextClassifier → A) : method A :=
  λ self, (attr self, self).

Definition setattr__text (value : string) : method unit :=
  λ self, (tt, {| __text := value;
                  __lemmatizer := __lemmatizer self;
                  __vowels := __vowels self |}).

Definition setattr__lemmatizer (value : string → string → string) : method unit :=
  λ self, (tt, {| __text := __text self;
                  __lemmatizer := value;
                  __vowels := __vowels self |}).

Definition setattr__vowels (value : gset string) : method unit :=
  λ self, (tt, {| __text := __text self;
                  __lemmatizer := __lemmatizer self;
                  __vowels := value |}).

(** A generator object: the body of a generator function, not yet run. *)
Definition generator (A : Type) : Type := method (list A).

(** [list(g)] runs the body of a fresh generator to its end. *)
Definition list_of {A : Type} (g : generator A) : method (list A) := g.

Section Methods.
Context `{Nltk}.

Definition __init__ (text : string) : method unit :=
  _ ← setattr__text text;
  _ ← setattr__lemmatizer WordNetLemmatizer;
  setattr__vowels {[ "a"; "e"; "i"; "o"; "u"; "y" ]}.

Definition __lemmatize (word : string) : method string :=
  lemmatizer ← getattr __lemmatizer;
  let lemma := lemmatizer word "v" in
  if bool_decide (lemma = word)
  then lemmatizer ← getattr __lemmatizer; mret (lemmatizer word "n")
  else mret lemma.

Definition __preprocess_text (is_sent tagged lemmatized : bool)
  : generator (yielded is_sent tagged) :=
  text ← getattr __text;
  chunks ← mapM (λ sent,
    let tokenized_sent : list string :=
      map PyStr.strip
        (List.filter (λ word, PyStr.truthy (PyStr.strip word)) (word_tokenize sent)) in
    tokenized_sent ←
      match tagged return method (list (token tagged)) with
      | true =>
          let tokenized_sent := pos_tag tokenized_sent in
          if lemmatized
          then mapM (λ x, lemma ← __lemmatize x.1; mret (lemma, x.2)) tokenized_sent
          else mret tokenized_sent
      | false =>
          if lemmatized
          then mapM __lemmatize tokenized_sent
          else mret tokenized_sent
      end;
    mret (match is_sent return list (yielded is_sent tagged) with
          | true => [tokenized_sent]
          | false => tokenized_sent
          end)) (sent_tokenize text);
  mret (concat chunks).

Definition sents (lemmatized : bool) : method (generator (list string)) :=
  mret (__preprocess_text true false lemmatized).

Definition tagged_sents (lemmatized : bool)
  : method (generator (list (string * string))) :=
  mret (__preprocess_text true true lemmatized).

Definition words (lemmatized : bool) : method (generator string) :=
  mret (__preprocess_text false false lemmatized).

Definition tagged_words (lemmatized : bool)
  : method (generator (string * string)) :=
  mret (__preprocess_text false true lemmatized).

End Methods.

(** Two calls of a view, each generator consumed before the next call. *)
Definition twice_in_a_row {A : Type} (view : method (generator A))
  : method (list A * list A) :=
  first ← view; out ← list_of first;
  second ← view; out' ← list_of second;
  mret (out, out').

(** Two calls of a view, both generators created before either is
    consumed. *)
Definition twice_interleaved {A : Type} (view : method (generator A))
  : method (list A * list A) :=
  first ← view; second ← view;
  out ← list_of first; out' ← list_of second;
  mret (out, out').

End Stateful.

(** * Properties *)

(** ** Strings, sums and results *)

Lemma lower_char_idempotent (c : ascii) :
  PyStr.lower_char (PyStr.lower_char c) = PyStr.lower_char c.
Proof. destruct c as [[] [] [] [] [] [] [] []]; vm_compute; reflexivity. Qed.

Lemma lower_idempotent (s : string) : PyStr.lower (PyStr.lower s) = PyStr.lower s.
Proof.
  unfold PyStr.lower. induction s as [|c s IH]; simpl; [done|].
  by rewrite lower_char_idempotent, IH.
Qed.

Lemma append_empty_r (s : string) : s +:+ "" = s.
Proof.
  induction s as [|c s IH]; [done|].
  change (String c (s +:+ "") = String c s). by rewrite IH.
Qed.

Lemma fold_add_acc (l : list Z) (a : Z) : fold_left Z.add l a = a + sum l.
Proof.
  unfold sum. revert a. induction l as [|x l IH]; intros a; simpl; [lia|].
  rewrite (IH (a + x)), (IH (0 + x)). lia.
Qed.

Lemma sum_cons (x : Z) (l : list Z) : sum (x :: l) = x + sum l.
Proof. unfold sum at 1. simpl. apply fold_add_acc. Qed.

Lemma sum_app (l k : list Z) : sum (l ++ k) = sum l + sum k.
Proof.
  induction l as [|x l IH]; simpl; [done|]. rewrite !sum_cons, IH. lia.
Qed.

Lemma sum_ones {A : Type} (l : list A) : sum (map (λ _, 1) l) = len l.
Proof.
  unfold len. induction l as [|x l IH]; [done|].
  cbn [map length]. rewrite sum_cons, IH. lia.
Qed.

Lemma len_nonneg {A : Type} (l : list A) : 0 ≤ len l.
Proof. unfold len. lia. Qed.

Lemma flat_map_length_ext {A B C : Type} (f : A → list B) (g : A → list C)
    (l : list A) :
  (∀ x, length (f x) = length (g x)) →
  length (flat_map f l) = length (flat_map g l).
Proof.
  intros Hfg. induction l as [|x l IH]; simpl; [done|].
  by rewrite !length_app, Hfg, IH.
Qed.

Lemma len_flat_map_sum {A B : Type} (f : A → list B) (l : list A) :
  len (flat_map f l) = sum (map len (flat_map (λ x, [f x]) l)).
Proof.
  unfold len. induction l as [|x l IH]; [done|].
  cbn [flat_map app map]. rewrite length_app, Nat2Z.inj_add, IH, sum_cons.
  done.
Qed.

Lemma dict_lookup_well_formed `{Nltk} (word : string) (variants : list (list string)) :
  dict_well_formed p_dict → p_dict !! word = Some variants →
  ∃ first rest, variants = first :: rest ∧ forallb PyStr.truthy first = true.
Proof.
  intros Hwf Hlook. specialize (Hwf word variants Hlook).
  destruct variants as [|first rest]; [done|]. by exists first, rest.
Qed.

Lemma last_char_truthy (phone : string) :
  PyStr.truthy phone = true → ∃ c, PyStr.last_char phone = Some c.
Proof.
  induction phone as [|a s IH]; [done|]. intros _.
  destruct s as [|b s]; [by eexists|].
  destruct (IH eq_refl) as [c Hc]. exists c. exact Hc.
Qed.

Lemma last_item_truthy (phone : string) :
  PyStr.truthy phone = true →
  ∃ c, PyStr.last_char phone = Some c ∧ last_item phone = Ok c.
Proof.
  intros [c Hc]%last_char_truthy. exists c. unfold last_item. by rewrite Hc.
Qed.

Lemma filter_phonemes (first : list string) :
  forallb PyStr.truthy first = true →
  filter_raising (λ phone, c ← last_item phone; Ok (PyStr.isdigit c)) first
  = Ok (List.filter ends_with_digit first).
Proof.
  induction first as [|phone first IH]; [done|].
  cbn [forallb]. intros [Hphone Hrest]%andb_prop.
  destruct (last_item_truthy phone Hphone) as (c & Hlast & Hitem).
  cbn [filter_raising List.filter]. unfold ends_with_digit at 1.
  rewrite Hitem, Hlast, (IH Hrest). cbn [mbind result_bind].
  by destruct (PyStr.isdigit c).
Qed.

(** A loop over [l] whose body reads the instance reads the instance. *)
Lemma method_mapM_reads {A B : Type} (f : A → Stateful.method B) (g : A → B)
    (l : list A) (self : TextClassifier) :
  (∀ x, f x self = (g x, self)) → mapM f l self = (map g l, self).
Proof.
  intros Hf. induction l as [|x l IH]; [done|].
  cbn [mapM map]. unfold mbind, Stateful.method_bind at 1.
  rewrite Hf. unfold mbind, Stateful.method_bind at 1. rewrite IH. reflexivity.
Qed.

(** ** The claims *)
Section Claims.
Context {F : Type} `{PyFloat F} `{Nltk} `{Re}.

(** **** The preprocessing pipeline, sentence by sentence *)

Lemma words_length_lemmatized (self : TextClassifier) (lemmatized : bool) :
  length (words self lemmatized) = length (words self false).
Proof.
  unfold words, __preprocess_text. apply flat_map_length_ext. intros sent.
  destruct lemmatized; [|done]. by rewrite length_map.
Qed.

Lemma tagged_words_length (self : TextClassifier) (lemmatized : bool) :
  tagger_keeps_length →
  length (tagged_words self lemmatized) = length (words self false).
Proof.
  intros Htag. unfold tagged_words, words, __preprocess_text.
  apply flat_map_length_ext. intros sent.
  destruct lemmatized; [rewrite length_map|]; apply Htag.
Qed.

(** C4. The lemmatization helper asks for the verb lemma first; when the
    verb lemma is the word itself it returns the noun lemma, and when it
    is not it returns the verb lemma. *)
Theorem lemmatize_verb_then_noun (text word : string) :
  let self := __init__ text in
  (WordNetLemmatizer word "v" = word →
     __lemmatize self word = WordNetLemmatizer word "n")
  ∧ (WordNetLemmatizer word "v" ≠ word →
     __lemmatize self word = WordNetLemmatizer word "v").
Proof.
  cbn zeta. unfold __lemmatize, __init__. cbn [__lemmatizer].
  split; intros Hverb; case_bool_decide; congruence.
Qed.

(** C5. On the empty document every view, with either value of the
    lemmatized flag, is the empty sequence, as soon as the sentence
    splitter finds no sentence in the empty text. *)
Theorem empty_document_views_empty (lemmatized : bool) :
  splits_empty_text →
  let self := __init__ "" in
  sents self lemmatized = []
  ∧ tagged_sents self lemmatized = []
  ∧ words self lemmatized = []
  ∧ tagged_words self lemmatized = [].
Proof.
  intros Hempty. cbn zeta.
  unfold sents, tagged_sents, words, tagged_words, __preprocess_text, __init__.
  cbn [__text]. unfold splits_empty_text in Hempty. rewrite Hempty.
  by repeat split.
Qed.

(** C6. The number of items of [words()] is the sum of the lengths of
    the sentences of [sents()]. *)
Theorem words_count_is_sum_of_sentence_lengths (text : string) (lemmatized : bool) :
  let self := __init__ text in
  sum (map (λ _, 1) (words self lemmatized))
  = sum (map len (sents self lemmatized)).
Proof.
  cbn zeta. rewrite sum_ones.
  unfold words, sents, __preprocess_text. apply len_flat_map_sum.
Qed.

(** C7. [has_peculiar_expression] compiles the caller's pattern with
    the IGNORECASE flag and searches the raw document: it is true
    exactly when the search finds a match, false exactly when it finds
    none, and a pattern the compiler refuses raises the compiler's
    error, which names the pattern. *)
Theorem has_peculiar_expression_searches_ignoring_case (text expression : string) :
  compile_errors_name_pattern →
  let self := __init__ text in
  (has_peculiar_expression self expression = Ok true ↔
     ∃ p m, re_compile expression [IGNORECASE] = Ok p
            ∧ Pattern_search p text = Some m)
  ∧ (has_peculiar_expression self expression = Ok false ↔
     ∃ p, re_compile expression [IGNORECASE] = Ok p
          ∧ Pattern_search p text = None)
  ∧ (∀ e, has_peculiar_expression self expression = Raise e ↔
          re_compile expression [IGNORECASE] = Raise e)
  ∧ (∀ e, has_peculiar_expression self expression = Raise e →
          ∃ msg, e = re_error msg expression).
Proof.
  intros Hname. cbn zeta.
  assert (Hrun : has_peculiar_expression (__init__ text) expression
                 = p ← re_compile expression [IGNORECASE];
                   Ok (bool_of_match (Pattern_search p text))).
  { unfold has_peculiar_expression, re_search, __init__. cbn [__text].
    change ("" +:+ expression +:+ "") with (expression +:+ "").
    rewrite append_empty_r.
    by destruct (re_compile expression [IGNORECASE]). }
  rewrite Hrun.
  destruct (re_compile expression [IGNORECASE]) as [p|e0] eqn:Hcompile;
    cbn [mbind result_bind].
  - destruct (Pattern_search p text) as [m|] eqn:Hsearch; cbn [bool_of_match].
    + repeat split; try done.
      * intros _. exists p, m. by rewrite Hsearch.
      * intros (p' & [= <-] & Hnone). congruence.
    + repeat split; try done.
      * intros (p' & m & [= <-] & Hsome). congruence.
      * intros _. by exists p.
  - split; [|split; [|split]].
    + split; [done|]. by intros (p & m & ? & _).
    + split; [done|]. by intros (p & ? & _).
    + intros e. split; congruence.
    + intros e [= <-]. by apply (Hname expression [IGNORECASE]).
Qed.

(** **** The views as programs over the instance *)

Lemma stateful_lemmatize_reads (word : string) (self : TextClassifier) :
  Stateful.__lemmatize word self = (__lemmatize self word, self).
Proof.
  unfold Stateful.__lemmatize, __lemmatize, Stateful.getattr.
  unfold mbind, Stateful.method_bind, mret, Stateful.method_ret.
  by case_bool_decide.
Qed.

Lemma stateful_preprocess_reads (is_sent tagged lemmatized : bool)
    (self : TextClassifier) :
  Stateful.__preprocess_text is_sent tagged lemmatized self
  = (__preprocess_text self is_sent tagged lemmatized, self).
Proof.
  unfold Stateful.__preprocess_text, __preprocess_text, Stateful.getattr.
  unfold mbind at 1, Stateful.method_bind at 1.
  unfold mbind at 1, Stateful.method_bind at 1.
  erewrite method_mapM_reads.
  - unfold mret, Stateful.method_ret. by rewrite flat_map_concat_map.
  - intros sent. cbn zeta.
    unfold mbind at 1, Stateful.method_bind at 1.
    destruct tagged, lemmatized; unfold mret, Stateful.method_ret;
      try reflexivity.
    + erewrite method_mapM_reads; [reflexivity|]. intros [word tag].
      unfold mbind, Stateful.method_bind. by rewrite stateful_lemmatize_reads.
    + erewrite method_mapM_reads; [reflexivity|]. intros word.
      apply stateful_lemmatize_reads.
Qed.

Lemma stateful_init_assigns_the_attributes (text : string) (self : TextClassifier) :
  Stateful.__init__ text self = (tt, __init__ text).
Proof. reflexivity. Qed.

(** C8. On an instance in any state, two calls of one view with the same
    argument yield the same sequence, whether the first generator is
    consumed before the second call or after it, and the run leaves every
    attribute of the instance as it found it: the body of the pipeline and
    the lemmatization helper it calls token by token read the instance and
    assign nothing. *)
Theorem views_are_repeatable (self : TextClassifier) (lemmatized : bool) :
  (Stateful.twice_in_a_row (Stateful.sents lemmatized) self
     = (sents self lemmatized, sents self lemmatized, self)
   ∧ Stateful.twice_interleaved (Stateful.sents lemmatized) self
     = (sents self lemmatized, sents self lemmatized, self))
  ∧ (Stateful.twice_in_a_row (Stateful.tagged_sents lemmatized) self
       = (tagged_sents self lemmatized, tagged_sents self lemmatized, self)
     ∧ Stateful.twice_interleaved (Stateful.tagged_sents lemmatized) self
       = (tagged_sents self lemmatized, tagged_sents self lemmatized, self))
  ∧ (Stateful.twice_in_a_row (Stateful.words lemmatized) self
       = (words self lemmatized, words self lemmatized, self)
     ∧ Stateful.twice_interleaved (Stateful.words lemmatized) self
       = (words self lemmatized, words self lemmatized, self))
  ∧ (Stateful.twice_in_a_row (Stateful.tagged_words lemmatized) self
       = (tagged_words self lemmatized, tagged_words self lemmatized, self)
     ∧ Stateful.twice_interleaved (Stateful.tagged_words lemmatized) self
       = (tagged_words self lemmatized, tagged_words self lemmatized, self)).
Proof.
  unfold Stateful.twice_in_a_row, Stateful.twice_interleaved, Stateful.list_of,
    Stateful.sents, Stateful.tagged_sents, Stateful.words, Stateful.tagged_words,
    sents, tagged_sents, words, tagged_words.
  unfold mbind, Stateful.method_bind, mret, Stateful.method_ret.
  repeat split; by rewrite !stateful_preprocess_reads.
Qed.

(** C10. [count_syllables] gives a word and its lower-cased form the
    same result. *)
Theorem count_syllables_case_insensitive (text word : string) :
  let self := __init__ text in
  count_syllables self word = count_syllables self (PyStr.lower word).
Proof.
  cbn zeta. unfold count_syllables. by rewrite lower_idempotent.
Qed.

(** **** Syllables *)

Lemma count_syllables_unknown (self : TextClassifier) (word : string) :
  p_dict !! PyStr.lower word = None →
  count_syllables self word
  = Ok (len (List.filter (λ letter, bool_decide (letter ∈ __vowels self))
               (PyStr.chars (PyStr.lower word)))).
Proof. intros Hnone. unfold count_syllables. by rewrite Hnone. Qed.

Lemma count_syllables_known (self : TextClassifier) (word : string)
    (first : list string) (rest : list (list string)) :
  p_dict !! PyStr.lower word = Some (first :: rest) →
  forallb PyStr.truthy first = true →
  count_syllables self word = Ok (len (List.filter ends_with_digit first)).
Proof.
  intros Hsome Hfirst. unfold count_syllables. rewrite Hsome.
  cbn [first_item mbind result_bind]. by rewrite (filter_phonemes first Hfirst).
Qed.

Lemma count_syllables_total (self : TextClassifier) (word : string) :
  dict_well_formed p_dict →
  ∃ n, count_syllables self word = Ok n ∧ 0 ≤ n.
Proof.
  intros Hwf. destruct (p_dict !! PyStr.lower word) as [variants|] eqn:Hlook.
  - destruct (dict_lookup_well_formed _ _ Hwf Hlook)
      as (first & rest & -> & Hfirst).
    eexists. split; [by apply (count_syllables_known _ _ first rest)|].
    apply len_nonneg.
  - eexists. split; [by apply count_syllables_unknown|]. apply len_nonneg.
Qed.

Lemma mapM_count_syllables_total (self : TextClassifier) (l : list string) :
  dict_well_formed p_dict →
  ∃ syllables, mapM (count_syllables self) l = Ok syllables.
Proof.
  intros Hwf. induction l as [|word l [syllables IH]]; [by eexists|].
  destruct (count_syllables_total self word Hwf) as (n & Hn & _).
  exists (n :: syllables). cbn [mapM]. by rewrite Hn, IH.
Qed.

(** C3. [count_syllables] lower-cases the word.  A word outside the
    dictionary gets the number of its characters that are in the set
    a, e, i, o, u, y, and no error.  With a dictionary whose entries
    have a first variant and no empty phoneme code, a word of the
    dictionary gets the number of the phonemes of its first variant
    that end with a digit, and every result is a non-negative
    integer. *)
Theorem count_syllables_counts_phonemes_or_vowels (text word : string) :
  let self := __init__ text in
  let lowered := PyStr.lower word in
  (p_dict !! lowered = None →
     count_syllables self word
     = Ok (len (List.filter is_vowel (PyStr.chars lowered))))
  ∧ (dict_well_formed p_dict →
       (∀ variants, p_dict !! lowered = Some variants →
          ∃ first rest, variants = first :: rest
            ∧ count_syllables self word
              = Ok (len (List.filter ends_with_digit first)))
       ∧ (∃ n, count_syllables self word = Ok n ∧ 0 ≤ n)).
Proof.
  cbn zeta. split.
  - intros Hnone. by rewrite count_syllables_unknown.
  - intros Hwf. split; [|by apply count_syllables_total].
    intros variants Hlook.
    destruct (dict_lookup_well_formed _ _ Hwf Hlook)
      as (first & rest & -> & Hfirst).
    exists first, rest. split; [done|].
    by apply (count_syllables_known _ _ first rest).
Qed.

(** **** Reading ease *)

Lemma mapM_cons {A B : Type} (f : A → result B) (x : A) (l : list A) :
  mapM f (x :: l) = y ← f x; k ← mapM f l; Ok (y :: k).
Proof. reflexivity. Qed.

Lemma sentence_score_unfold (self : TextClassifier) (alphabetic : list string) :
  sentence_score self alphabetic
  = syllables ← mapM (count_syllables self) alphabetic;
    Ok (flesch (len alphabetic) (sum syllables)).
Proof. reflexivity. Qed.

Lemma int_truediv_nonzero (a b : Z) :
  b ≠ 0 → int_truediv a b = Ok (truediv a b).
Proof. intros Hb. unfold int_truediv. by rewrite (proj2 (Z.eqb_neq b 0) Hb). Qed.

Lemma int_truediv_zero (a : Z) : int_truediv a 0 = Raise ZeroDivisionError.
Proof. reflexivity. Qed.

(** The loop of [calculate_sentence_reading_ease] over any list of
    sentences and from any accumulator. *)
Lemma reading_ease_loop (self : TextClassifier) (l : list (list string)) (acc : F) :
  for_each (λ reading_ease sent,
      let words := List.filter PyStr.isalpha sent in
      match words with
      | [] => Ok reading_ease
      | _ :: _ =>
          syllables ← mapM (count_syllables self) words;
          per_word ← int_truediv (sum syllables) (len words);
          Ok (fadd reading_ease
                (fsub (fsub (float_lit 206.835)
                            (fmul (float_lit 1.015) (float_of_int (len words))))
                      (fmul (float_lit 84.6) per_word)))
      end) l acc
  = scores ← mapM (sentence_score self)
               (List.filter has_tokens (map (List.filter PyStr.isalpha) l));
    Ok (fold_left fadd scores acc).
Proof.
  revert acc. induction l as [|sent l IH]; intros acc; [done|].
  cbn [for_each map List.filter]. cbn zeta.
  destruct (List.filter PyStr.isalpha sent) as [|w ws] eqn:Halpha.
  - cbn [has_tokens mbind result_bind]. apply IH.
  - cbn [has_tokens].
    assert (Hlen : len (w :: ws) ≠ 0) by (unfold len; cbn [length]; lia).
    remember (w :: ws) as alphabetic eqn:Halphabetic.
    rewrite mapM_cons.
    rewrite sentence_score_unfold.
    destruct (mapM (count_syllables self) alphabetic) as [syllables|e];
      cbn [mbind result_bind]; [|done].
    rewrite (int_truediv_nonzero _ _ Hlen).
    cbn [mbind result_bind]. rewrite IH. unfold flesch.
    by destruct (mapM (sentence_score self) _).
Qed.

Lemma mapM_sentence_score_total (self : TextClassifier) (l : list (list string)) :
  dict_well_formed p_dict →
  ∃ scores, mapM (sentence_score self) l = Ok scores.
Proof.
  intros Hwf. induction l as [|ws l [scores IH]]; [by eexists|].
  destruct (mapM_count_syllables_total self ws Hwf) as [syllables Hs].
  eexists. rewrite mapM_cons, sentence_score_unfold, Hs.
  cbn [mbind result_bind]. rewrite IH. reflexivity.
Qed.

(** C2. [calculate_sentence_reading_ease] is the sum, taken from [0.0]
    in the order of the sentences, of
    [206.835 - 1.015 * n - 84.6 * (syllables / n)] over the sentences
    that have an alphabetic token, [n] and [syllables] counting only the
    alphabetic tokens of the sentence; a sentence without one adds
    nothing.  With a well-formed dictionary the score is returned for
    every document, and it is [0.0] for the empty document, in which the
    splitter finds no sentence. *)
Theorem reading_ease_is_sum_of_sentence_scores (text : string) :
  dict_well_formed p_dict → splits_empty_text →
  let self := __init__ text in
  calculate_sentence_reading_ease self = summed_sentence_scores self
  ∧ (∃ score, calculate_sentence_reading_ease self = Ok score)
  ∧ calculate_sentence_reading_ease (__init__ "") = Ok (float_lit 0.0).
Proof.
  intros Hwf Hempty. cbn zeta.
  assert (Hloop : ∀ self, calculate_sentence_reading_ease self
                          = summed_sentence_scores self).
  { intros self. unfold calculate_sentence_reading_ease.
    apply reading_ease_loop. }
  split; [apply Hloop|]. split.
  - rewrite Hloop. unfold summed_sentence_scores. cbn zeta.
    destruct (mapM_sentence_score_total (__init__ text)
                (List.filter has_tokens
                   (map (List.filter PyStr.isalpha)
                      (sents (__init__ text) false))) Hwf) as [scores Hs].
    rewrite Hs. by eexists.
  - unfold calculate_sentence_reading_ease, sents, __preprocess_text, __init__.
    cbn [__text]. unfold splits_empty_text in Hempty. by rewrite Hempty.
Qed.

(** **** Metrics that divide by the number of words *)

(** C1, as the code has it.  On a document without words the three
    metrics divide by a zero count: each raises [ZeroDivisionError], the
    error of the division itself. *)
Theorem wordless_document_metrics_raise_ZeroDivisionError
    (text : string) (tags_to_search words_to_search : gset string) :
  tagger_keeps_length →
  let self := __init__ text in
  words self false = [] →
  calculate_lexical_density_by_tags self tags_to_search = Raise ZeroDivisionError
  ∧ calculate_words_frequency self words_to_search = Raise ZeroDivisionError
  ∧ calculate_type_token_ratio self = Raise ZeroDivisionError.
Proof.
  intros Htag. cbn zeta. intros Hwords.
  assert (Htagged : len (tagged_words (__init__ text) false) = 0).
  { unfold len. by rewrite tagged_words_length, Hwords. }
  assert (Hlemmas : len (map PyStr.lower (words (__init__ text) true)) = 0).
  { unfold len. by rewrite length_map, words_length_lemmatized, Hwords. }
  unfold calculate_lexical_density_by_tags, calculate_words_frequency,
    calculate_type_token_ratio. cbn zeta.
  rewrite Htagged, Hlemmas, Hwords. by rewrite !int_truediv_zero.
Qed.

(** C9. On a document with at least one word the lexical density is
    returned and lies between 0 and 100, for every set of tags: the
    tagged words that match are among the tagged words.  The arithmetic
    is any one whose rounding is monotone and exact on small integers. *)
Theorem lexical_density_between_0_and_100 `{!PyFloatOrder F}
    (text : string) (tags_to_search : gset string) :
  tagger_keeps_length →
  let self := __init__ text in
  words self false ≠ [] →
  ∃ density,
    calculate_lexical_density_by_tags self tags_to_search = Ok density
    ∧ fle (float_of_int 0) density ∧ fle density (float_of_int 100).
Proof.
  intros Htag. cbn zeta. intros Hwords.
  unfold calculate_lexical_density_by_tags. cbn zeta.
  set (tagged := tagged_words (__init__ text) false).
  set (matching := List.filter _ tagged).
  assert (Htotal : 0 < len tagged).
  { unfold len, tagged. rewrite tagged_words_length by done.
    destruct (words (__init__ text) false); [done|]. cbn [length]. lia. }
  assert (Hmatching : 0 ≤ len matching ≤ len tagged).
  { split; [apply len_nonneg|]. unfold len, matching.
    apply inj_le, List.filter_length_le. }
  rewrite int_truediv_nonzero by lia. cbn [mbind result_bind].
  eexists. split; [reflexivity|].
  assert (Hsmall : ∀ k, 0 ≤ k ≤ 1 →
            Z.abs k ≤ 2 ^ 53 ∧ Z.abs 100 ≤ 2 ^ 53 ∧ Z.abs (k * 100) ≤ 2 ^ 53)
    by (intros k Hk; change (2 ^ 53) with 9007199254740992; lia).
  split.
  - apply (fle_trans _ (round_ndigits (float_of_int (0 * 100)) 3));
      [by apply round_int_ge|].
    apply round_mono.
    apply (fle_trans _ (fmul (float_of_int 0) (float_of_int 100))).
    + apply fmul_int_exact_ge; apply (Hsmall 0); lia.
    + apply fmul_int_mono; [change (2 ^ 53) with 9007199254740992; lia|].
      apply int_le_truediv; lia.
  - apply (fle_trans _ (round_ndigits (float_of_int (1 * 100)) 3));
      [|by apply round_int_le].
    apply round_mono.
    apply (fle_trans _ (fmul (float_of_int 1) (float_of_int 100))).
    + apply fmul_int_mono; [change (2 ^ 53) with 9007199254740992; lia|].
      apply truediv_le_int; lia.
    + apply fmul_int_exact_le; apply (Hsmall 1); lia.
Qed.

End Claims.

(** ** Exact arithmetic has the order laws *)
Module ExactOrder.
Import Exact.
Local Open Scope Q_scope.

Lemma round_half_even_bounds (q : Q) :
  (Qfloor q ≤ round_half_even q ≤ Qfloor q + 1)%Z.
Proof.
  unfold round_half_even.
  destruct (Qcompare _ _); [destruct (Z.even _)|..]; lia.
Qed.

Lemma round_half_even_comp (x y : Q) :
  x == y → round_half_even x = round_half_even y.
Proof.
  intros Hxy. unfold round_half_even.
  rewrite (Qfloor_comp x y Hxy).
  assert (Hfrac : x - inject_Z (Qfloor y) == y - inject_Z (Qfloor y))
    by (rewrite Hxy; reflexivity).
  by rewrite (Qcompare_comp _ _ Hfrac (1 # 2) (1 # 2) (Qeq_refl _)).
Qed.

Lemma round_half_even_int (z : Z) : round_half_even (inject_Z z) = z.
Proof.
  unfold round_half_even. rewrite Qfloor_Z.
  assert (Hlt : inject_Z z - inject_Z z < 1 # 2).
  { unfold Qminus. rewrite Qplus_opp_r. reflexivity. }
  by rewrite (proj1 (Qlt_alt _ _) Hlt).
Qed.

Lemma round_half_even_mono (x y : Q) :
  x <= y → (round_half_even x ≤ round_half_even y)%Z.
Proof.
  intros Hxy. pose proof (Qfloor_resp_le x y Hxy) as Hfloor.
  destruct (Z.eq_dec (Qfloor x) (Qfloor y)) as [Heq|Hne].
  - unfold round_half_even. rewrite Heq.
    assert (Hfrac : x - inject_Z (Qfloor y) <= y - inject_Z (Qfloor y)).
    { apply Qplus_le_compat; [done|apply Qle_refl]. }
    destruct (Qcompare_spec (x - inject_Z (Qfloor y)) (1 # 2)) as [Hx|Hx|Hx];
      destruct (Qcompare_spec (y - inject_Z (Qfloor y)) (1 # 2)) as [Hy|Hy|Hy];
      try solve [destruct (Z.even (Qfloor y)); lia].
    + exfalso. rewrite Hx in Hfrac. by apply (Qle_not_lt _ _ Hfrac).
    + exfalso. rewrite Hy in Hfrac. by apply (Qle_not_lt _ _ Hfrac).
    + exfalso. apply (Qle_not_lt _ _ Hfrac). by apply (Qlt_trans _ (1 # 2)).
  - pose proof (round_half_even_bounds x). pose proof (round_half_even_bounds y).
    lia.
Qed.

Lemma ten_power_pos (n : Z) : 0 < inject_Z 10 ^ n.
Proof. by apply Qpower_0_lt. Qed.

Lemma round_decimal_mono (x y : Q) (n : Z) :
  x <= y → round_decimal x n <= round_decimal y n.
Proof.
  intros Hxy. unfold round_decimal, Qdiv.
  pose proof (ten_power_pos n) as Hpos.
  apply Qmult_le_compat_r; [|by apply Qinv_le_0_compat, Qlt_le_weak].
  rewrite <- Zle_Qle. apply round_half_even_mono.
  by apply Qmult_le_compat_r; [|apply Qlt_le_weak].
Qed.

Lemma round_decimal_int (k n : Z) :
  (0 ≤ n)%Z → round_decimal (inject_Z k) n == inject_Z k.
Proof.
  intros Hn. unfold round_decimal.
  pose proof (ten_power_pos n) as Hpos.
  assert (Hint : inject_Z k * inject_Z 10 ^ n == inject_Z (k * 10 ^ n)).
  { rewrite inject_Z_mult, (Zpower_Qpower 10 n Hn). reflexivity. }
  rewrite (round_half_even_comp _ _ Hint), round_half_even_int, inject_Z_mult.
  rewrite (Zpower_Qpower 10 n Hn). apply Qdiv_mult_l.
  intros Hzero. rewrite Hzero in Hpos. by apply (Qlt_irrefl 0).
Qed.

#[export] Instance exact_order : PyFloatOrder Q.
Proof.
  split; cbn [fle float_of_int fmul truediv round_ndigits exact].
  - apply Qle_trans.
  - intros a b k Hb Hle. apply Qle_shift_div_r.
    + by rewrite (Zlt_Qlt 0 b) in Hb.
    + rewrite <- inject_Z_mult. by rewrite <- Zle_Qle.
  - intros a b k Hb Hle. apply Qle_shift_div_l.
    + by rewrite (Zlt_Qlt 0 b) in Hb.
    + rewrite <- inject_Z_mult. by rewrite <- Zle_Qle.
  - intros x y n [Hn _] Hxy. apply Qmult_le_compat_r; [done|].
    change (inject_Z 0 <= inject_Z n). rewrite <- Zle_Qle. lia.
  - intros a b _ _ _. rewrite inject_Z_mult. apply Qle_refl.
  - intros a b _ _ _. rewrite inject_Z_mult. apply Qle_refl.
  - apply round_decimal_mono.
  - intros k n Hn. rewrite (round_decimal_int k n Hn). apply Qle_refl.
  - intros k n Hn. rewrite (round_decimal_int k n Hn). apply Qle_refl.
Qed.

End ExactOrder.

(** ** The fixture resources keep the contracts *)

Lemma fixture_splits_empty_text : @splits_empty_text Fixture.nltk.
Proof. reflexivity. Qed.

Lemma fixture_tagger_keeps_length : @tagger_keeps_length Fixture.nltk.
Proof. intros tokens. apply length_map. Qed.

Lemma fixture_dict_well_formed : dict_well_formed (@p_dict Fixture.nltk).
Proof. apply (bool_decide_unpack _). vm_compute. reflexivity. Qed.

Lemma small_re_parse_errors (pattern : string) (fuel : nat) :
  (∀ s e, SmallRe.parse_alt fuel pattern s = Raise e →
     ∃ msg, e = re_error msg pattern)
  ∧ (∀ s acc e, SmallRe.parse_seq fuel pattern s acc = Raise e →
     ∃ msg, e = re_error msg pattern)
  ∧ (∀ s e, SmallRe.parse_atom fuel pattern s = Raise e →
     ∃ msg, e = re_error msg pattern).
Proof.
  induction fuel as [|fuel (IHalt & IHseq & IHatom)].
  - repeat split; intros; simplify_eq/=; by eexists.
  - split; [|split].
    + intros s e Halt. cbn [SmallRe.parse_alt] in Halt.
      destruct (SmallRe.parse_seq fuel pattern s SmallRe.Empty)
        as [[r rest]|e'] eqn:Hseq; cbn [mbind result_bind] in Halt;
        [|injection Halt as <-; by eapply IHseq].
      destruct rest as [|c rest']; [done|].
      destruct (Ascii.eqb c "|"); [|done].
      destruct (SmallRe.parse_alt fuel pattern rest') as [[r' rest'']|e'] eqn:Hrec;
        cbn [mbind result_bind] in Halt; [done|].
      injection Halt as <-. by eapply IHalt.
    + intros s acc e Hseq. cbn [SmallRe.parse_seq] in Hseq.
      destruct s as [|c s']; [done|].
      destruct (Ascii.eqb c ")" || Ascii.eqb c "|")%char; [done|].
      destruct (SmallRe.parse_atom fuel pattern (c :: s'))
        as [[a rest]|e'] eqn:Hatom; cbn [mbind result_bind] in Hseq;
        [|injection Hseq as <-; by eapply IHatom].
      destruct (SmallRe.postfix a rest) as [a' rest'].
      destruct rest' as [|c' rest'']; [by eapply IHseq|].
      destruct (Ascii.eqb c' "*" || Ascii.eqb c' "+")%char;
        [injection Hseq as <-; by eexists|by eapply IHseq].
    + intros s e Hatom. cbn [SmallRe.parse_atom] in Hatom.
      destruct s as [|c rest]; [injection Hatom as <-; by eexists|].
      destruct (Ascii.eqb c "(").
      { destruct (SmallRe.parse_alt fuel pattern rest)
          as [[r rest']|e'] eqn:Halt; cbn [mbind result_bind] in Hatom;
          [|injection Hatom as <-; by eapply IHalt].
        destruct rest' as [|c' rest'']; [injection Hatom as <-; by eexists|].
        destruct (Ascii.eqb c' ")"); [done|].
        injection Hatom as <-; by eexists. }
      destruct (Ascii.eqb c "\").
      { destruct rest as [|c' rest']; [injection Hatom as <-; by eexists|].
        destruct (PyStr.isalpha_char c' || PyStr.isdigit_char c'); [|done].
        injection Hatom as <-; by eexists. }
      destruct (Ascii.eqb c "."); [done|].
      destruct (SmallRe.is_postfix c); [injection Hatom as <-; by eexists|].
      destruct (SmallRe.unsupported c); [|done].
      injection Hatom as <-; by eexists.
Qed.

Lemma small_re_errors_name_pattern : @compile_errors_name_pattern SmallRe.re.
Proof.
  intros pattern flags e. cbn [re_compile SmallRe.re]. unfold SmallRe.compile.
  cbn zeta. intros Hcompile.
  destruct (SmallRe.parse_alt _ pattern _) as [[r rest]|e'] eqn:Hparse;
    cbn [mbind result_bind] in Hcompile.
  - destruct rest; [done|]. injection Hcompile as <-. by eexists.
  - injection Hcompile as <-.
    by eapply (proj1 (small_re_parse_errors pattern _)).
Qed.

(** ** The methods on fixture texts, with binary64 floats *)
Section Examples.
Import Binary64 Fixture SmallRe.

Example words_of_a_sentence :
  words (__init__ "The cats are running.") false
  = ["The"; "cats"; "are"; "running"; "."].
Proof. vm_compute. reflexivity. Qed.

Example tagged_lemmas_of_a_sentence :
  tagged_words (__init__ "The cats are running.") true
  = [("The", "DT"); ("cat", "NNS"); ("be", "VBP"); ("run", "VBG"); (".", ".")].
Proof. vm_compute. reflexivity. Qed.

Example sentences_of_two :
  sents (__init__ "The cat sat.  Hello there!") false
  = [["The"; "cat"; "sat"; "."]; ["Hello"; "there"; "!"]].
Proof. vm_compute. reflexivity. Qed.

Example syllables_of_cat : count_syllables (__init__ "") "cat" = Ok 1.
Proof. vm_compute. reflexivity. Qed.

Example syllables_of_banana : count_syllables (__init__ "") "Banana" = Ok 3.
Proof. vm_compute. reflexivity. Qed.

Example syllables_of_unknown_word : count_syllables (__init__ "") "zzxqv" = Ok 0.
Proof. vm_compute. reflexivity. Qed.

Example syllables_count_y : count_syllables (__init__ "") "RHYTHM" = Ok 1.
Proof. vm_compute. reflexivity. Qed.

Example reading_ease_of_two_sentences :
  calculate_sentence_reading_ease (__init__ "The cat sat. Hello!")
  = Ok 0x1.379eb851eb854p+7%float.
Proof. vm_compute. reflexivity. Qed.

Example reading_ease_skips_punctuation_sentence :
  calculate_sentence_reading_ease (__init__ "The cat sat. !")
  = calculate_sentence_reading_ease (__init__ "The cat sat.").
Proof. vm_compute. reflexivity. Qed.

Example lexical_density_of_a_sentence :
  calculate_lexical_density_by_tags (__init__ "The cats are running.")
    {[ "NNS"; "VBG" ]}
  = Ok 40%float.
Proof. vm_compute. reflexivity. Qed.

Example words_frequency_of_a_sentence :
  calculate_words_frequency (__init__ "The cats are running.") {[ "cats" ]}
  = Ok 200%float.
Proof. vm_compute. reflexivity. Qed.

Example type_token_ratio_of_two_sentences :
  calculate_type_token_ratio (__init__ "The cats are running. The cat runs.")
  = Ok 0x1.1c71c71c71c72p-1%float.
Proof. vm_compute. reflexivity. Qed.

Example hello_is_found :
  has_peculiar_expression (__init__ "Well, hello there!") "hello" = Ok true.
Proof. vm_compute. reflexivity. Qed.

Example hello_is_found_in_capitals :
  has_peculiar_expression (__init__ "Well, HELLO there!") "hello" = Ok true.
Proof. vm_compute. reflexivity. Qed.

Example hello_is_not_in_goodbye :
  has_peculiar_expression (__init__ "Goodbye") "hello" = Ok false.
Proof. vm_compute. reflexivity. Qed.

Example unclosed_group_is_refused :
  has_peculiar_expression (__init__ "Goodbye") "(hello"
  = Raise (re_error "missing ), unterminated subpattern" "(hello").
Proof. vm_compute. reflexivity. Qed.

(** An assignment between two calls shows in the second one: the model
    of the instance does record mutation. *)
Example assignment_between_calls_is_seen :
  (first ← Stateful.words false; out ← Stateful.list_of first;
   _ ← Stateful.setattr__text "Dogs jump.";
   second ← Stateful.words false; out' ← Stateful.list_of second;
   mret (out, out')) (__init__ "Cats run.")
  = (["Cats"; "run"; "."], ["Dogs"; "jump"; "."], __init__ "Dogs jump.").
Proof. vm_compute. reflexivity. Qed.

(** A generator reads the text when it is consumed, not when the view is
    called. *)
Example generator_reads_the_text_when_consumed :
  fst ((first ← Stateful.words false;
        _ ← Stateful.setattr__text "Dogs jump.";
        Stateful.list_of first) (__init__ "Cats run."))
  = ["Dogs"; "jump"; "."].
Proof. vm_compute. reflexivity. Qed.

End Examples.

(** ** The claims on the fixture resources *)

(** C1 as the specification words it fails on the empty document: each of
    the three metrics raises, and what it raises is the division's own
    [ZeroDivisionError], not an error of another kind. *)
Lemma wordless_document_error_is_the_arithmetic_trap :
  let self := @__init__ Fixture.nltk "" in
  ¬ (∃ e, @calculate_lexical_density_by_tags float Binary64.binary64 Fixture.nltk
            self ∅ = Raise e ∧ ¬ arithmetic_trap e)
  ∧ ¬ (∃ e, @calculate_words_frequency float Binary64.binary64 Fixture.nltk
              self ∅ = Raise e ∧ ¬ arithmetic_trap e)
  ∧ ¬ (∃ e, @calculate_type_token_ratio float Binary64.binary64 Fixture.nltk
              self = Raise e ∧ ¬ arithmetic_trap e).
Proof.
  cbn zeta.
  repeat split; intros (e & Hraise & Hother); apply Hother;
    vm_compute in Hraise; by injection Hraise as <-.
Qed.

Lemma wordless_document_metrics_raise_ZeroDivisionError_witness :
  let self := @__init__ Fixture.nltk "" in
  @calculate_lexical_density_by_tags float Binary64.binary64 Fixture.nltk
    self {[ "NN" ]} = Raise ZeroDivisionError
  ∧ @calculate_words_frequency float Binary64.binary64 Fixture.nltk
      self {[ "cats" ]} = Raise ZeroDivisionError
  ∧ @calculate_type_token_ratio float Binary64.binary64 Fixture.nltk self
    = Raise ZeroDivisionError.
Proof.
  apply (@wordless_document_metrics_raise_ZeroDivisionError
           float Binary64.binary64 Fixture.nltk "" {[ "NN" ]} {[ "cats" ]}).
  - exact fixture_tagger_keeps_length.
  - reflexivity.
Defined.

Lemma reading_ease_is_sum_of_sentence_scores_witness :
  let self := @__init__ Fixture.nltk "The cat sat. Hello!" in
  @calculate_sentence_reading_ease float Binary64.binary64 Fixture.nltk self
  = @summed_sentence_scores float Binary64.binary64 Fixture.nltk self
  ∧ (∃ score, @calculate_sentence_reading_ease float Binary64.binary64
                Fixture.nltk self = Ok score)
  ∧ @calculate_sentence_reading_ease float Binary64.binary64 Fixture.nltk
      (@__init__ Fixture.nltk "") = Ok (Binary64.literal 0.0).
Proof.
  apply (@reading_ease_is_sum_of_sentence_scores
           float Binary64.binary64 Fixture.nltk "The cat sat. Hello!").
  - exact fixture_dict_well_formed.
  - exact fixture_splits_empty_text.
Defined.

Lemma count_syllables_counts_phonemes_or_vowels_witness :
  (@count_syllables Fixture.nltk (@__init__ Fixture.nltk "") "Rhythm" = Ok 1)
  ∧ (∃ first rest,
       [["B"; "AH0"; "N"; "AE1"; "N"; "AH0"]] = first :: rest
       ∧ @count_syllables Fixture.nltk (@__init__ Fixture.nltk "") "BANANA"
         = Ok (len (List.filter ends_with_digit first))).
Proof.
  split.
  - apply (proj1 (@count_syllables_counts_phonemes_or_vowels
                    Fixture.nltk "" "Rhythm")).
    vm_compute. reflexivity.
  - apply (proj1 (proj2 (@count_syllables_counts_phonemes_or_vowels
                           Fixture.nltk "" "BANANA")
                    fixture_dict_well_formed)).
    vm_compute. reflexivity.
Defined.

Lemma lemmatize_verb_then_noun_witness :
  @__lemmatize (@__init__ Fixture.nltk "") "cats" = "cat"
  ∧ @__lemmatize (@__init__ Fixture.nltk "") "running" = "run".
Proof.
  split.
  - apply (proj1 (@lemmatize_verb_then_noun Fixture.nltk "" "cats")).
    vm_compute. reflexivity.
  - apply (proj2 (@lemmatize_verb_then_noun Fixture.nltk "" "running")).
    vm_compute. discriminate.
Defined.

Lemma empty_document_views_empty_witness :
  let self := @__init__ Fixture.nltk "" in
  @sents Fixture.nltk self true = []
  ∧ @tagged_sents Fixture.nltk self true = []
  ∧ @words Fixture.nltk self true = []
  ∧ @tagged_words Fixture.nltk self true = [].
Proof.
  apply (@empty_document_views_empty Fixture.nltk true).
  exact fixture_splits_empty_text.
Defined.

Lemma has_peculiar_expression_searches_ignoring_case_witness :
  @has_peculiar_expression SmallRe.re
    (@__init__ Fixture.nltk "Well, HELLO there!") "hello" = Ok true.
Proof.
  apply (proj1 (@has_peculiar_expression_searches_ignoring_case
                  Fixture.nltk SmallRe.re "Well, HELLO there!" "hello"
                  small_re_errors_name_pattern)).
  let compiled := eval vm_compute in (SmallRe.compile "hello" [IGNORECASE]) in
  match compiled with
  | Ok ?p =>
      exists p;
      let found := eval vm_compute in (SmallRe.search p "Well, HELLO there!") in
      match found with
      | Some ?m => exists m
      end
  end.
  split; vm_compute; reflexivity.
Defined.

Lemma lexical_density_between_0_and_100_witness :
  ∃ density : Q,
    @calculate_lexical_density_by_tags Q Exact.exact Fixture.nltk
      (@__init__ Fixture.nltk "The cats are running.") {[ "NNS"; "VBG" ]}
    = Ok density
    ∧ (0 <= density)%Q ∧ (density <= 100)%Q.
Proof.
  apply (@lexical_density_between_0_and_100 Q Exact.exact Fixture.nltk
           ExactOrder.exact_order "The cats are running." {[ "NNS"; "VBG" ]}).
  - exact fixture_tagger_keeps_length.
  - vm_compute. discriminate.
Defined.


(** * Further properties of the pipeline and the metrics *)

(** ** Lists and strings *)

Lemma flat_map_singleton_concat {A B : Type} (f : A → list B) (l : list A) :
  flat_map f l = concat (flat_map (λ x, [f x]) l).
Proof.
  induction l as [|x l IH]; [done|]. cbn [flat_map app concat]. by rewrite IH.
Qed.

Lemma flat_map_map_each {A B C : Type} (f : A → list B) (g : B → C) (l : list A) :
  flat_map (λ x, map g (f x)) l = map g (flat_map f l).
Proof.
  induction l as [|x l IH]; [done|]. cbn [flat_map]. by rewrite map_app, IH.
Qed.

Lemma flat_map_singleton_map {A B C : Type} (f : A → B) (g : B → C) (l : list A) :
  flat_map (λ x, [g (f x)]) l = map g (flat_map (λ x, [f x]) l).
Proof.
  induction l as [|x l IH]; [done|]. cbn [flat_map app map]. by rewrite IH.
Qed.

Lemma flat_map_singleton_length {A B : Type} (f : A → B) (l : list A) :
  length (flat_map (λ x, [f x]) l) = length l.
Proof.
  induction l as [|x l IH]; [done|]. cbn [flat_map app length]. by rewrite IH.
Qed.

Lemma filter_none {A : Type} (p : A → bool) (l : list A) :
  Forall (λ x, p x = false) l → List.filter p l = [].
Proof.
  induction 1 as [|x l Hx _ IH]; [done|]. cbn [List.filter]. by rewrite Hx.
Qed.

Lemma filter_all {A : Type} (p : A → bool) (l : list A) :
  Forall (λ x, p x = true) l → List.filter p l = l.
Proof.
  induction 1 as [|x l Hx _ IH]; [done|]. cbn [List.filter]. by rewrite Hx, IH.
Qed.

Lemma rstrip_idempotent (s : string) :
  PyStr.rstrip (PyStr.rstrip s) = PyStr.rstrip s.
Proof.
  induction s as [|c s IH]; [done|]. cbn [PyStr.rstrip].
  destruct (PyStr.rstrip s) as [|d r] eqn:Hr.
  - destruct (PyStr.isspace_char c) eqn:Hc; [done|].
    cbn [PyStr.rstrip]. by rewrite Hc.
  - cbn [PyStr.rstrip] in *. by rewrite IH.
Qed.

Lemma rstrip_head (c : ascii) (s : string) :
  PyStr.rstrip (String c s) = EmptyString
  ∨ ∃ r, PyStr.rstrip (String c s) = String c r.
Proof.
  cbn [PyStr.rstrip]. destruct (PyStr.rstrip s) as [|d r].
  - destruct (PyStr.isspace_char c); [by left|right; by eexists].
  - right. by eexists.
Qed.

Lemma lstrip_head (s : string) :
  PyStr.lstrip s = EmptyString
  ∨ ∃ c r, PyStr.lstrip s = String c r ∧ PyStr.isspace_char c = false.
Proof.
  induction s as [|c s IH]; [by left|]. cbn [PyStr.lstrip].
  destruct (PyStr.isspace_char c) eqn:Hc; [done|]. right. by exists c, s.
Qed.

Lemma strip_idempotent (s : string) : PyStr.strip (PyStr.strip s) = PyStr.strip s.
Proof.
  unfold PyStr.strip.
  destruct (lstrip_head s) as [->|(c & r & -> & Hc)]; [done|].
  destruct (rstrip_head c r) as [->|[r' Hr]]; [done|].
  rewrite Hr at 1. cbn [PyStr.lstrip]. rewrite Hc, <- Hr.
  apply rstrip_idempotent.
Qed.

Lemma chars_length (s : string) : length (PyStr.chars s) = String.length s.
Proof.
  induction s as [|c s IH]; [done|].
  cbn [PyStr.chars length String.length]. by rewrite IH.
Qed.

Lemma lower_length (s : string) : String.length (PyStr.lower s) = String.length s.
Proof.
  unfold PyStr.lower. induction s as [|c s IH]; [done|].
  cbn [PyStr.map_chars String.length]. by rewrite IH.
Qed.

Lemma distinct_count_le (l : list string) :
  (length (elements (list_to_set l : gset string)) ≤ length l)%nat.
Proof.
  change (size (list_to_set l : gset string) ≤ length l)%nat.
  induction l as [|x l IH]; [done|].
  cbn [list_to_set length]. rewrite size_union_alt, size_singleton.
  assert (Hdiff : (size ((list_to_set l : gset string) ∖ {[x]})
                   ≤ size (list_to_set l : gset string))%nat)
    by apply subseteq_size, subseteq_difference_l, reflexivity.
  lia.
Qed.

Lemma distinct_count_NoDup (l : list string) :
  NoDup l → length (elements (list_to_set l : gset string)) = length l.
Proof. intros Hl. by rewrite (elements_list_to_set l Hl). Qed.

Lemma filter_phonemes_malformed (first : list string) :
  forallb PyStr.truthy first = false →
  filter_raising (λ phone, c ← last_item phone; Ok (PyStr.isdigit c)) first
  = Raise IndexError.
Proof.
  induction first as [|phone first IH]; [done|].
  cbn [forallb filter_raising]. intros Hbad.
  destruct (PyStr.truthy phone) eqn:Hphone.
  - destruct (last_item_truthy phone Hphone) as (c & _ & ->).
    cbn [mbind result_bind]. by rewrite (IH Hbad).
  - by destruct phone.
Qed.

Lemma mapM_raises {A B : Type} (f : A → result B) (l : list A) (e : exception) :
  mapM f l = Raise e → ∃ x, x ∈ l ∧ f x = Raise e.
Proof.
  induction l as [|x l IH]; [done|].
  change (mapM f (x :: l)) with (y ← f x; k ← mapM f l; Ok (y :: k)).
  destruct (f x) as [y|e'] eqn:Hx; cbn [mbind result_bind].
  - destruct (mapM f l) as [k|e'']; cbn [mbind result_bind]; [done|].
    intros [= <-]. destruct (IH eq_refl) as (x' & Hin & Hx').
    exists x'. split; [by right|done].
  - intros [= <-]. exists x. split; [by left|done].
Qed.

(** ** The views *)
Section Views.
Context `{Nltk}.

(** X1. The word views are the sentence views concatenated: [words()]
    lists the tokens of [sents()] in order, [tagged_words()] those of
    [tagged_sents()]. *)
Theorem words_are_the_sentences_concatenated (text : string) (lemmatized : bool) :
  let self := __init__ text in
  words self lemmatized = concat (sents self lemmatized)
  ∧ tagged_words self lemmatized = concat (tagged_sents self lemmatized).
Proof.
  cbn zeta. unfold words, sents, tagged_words, tagged_sents, __preprocess_text.
  split; apply flat_map_singleton_concat.
Qed.

(** X2. The lemmatized plain views are the plain views with the
    lemmatization helper applied to every token, in place. *)
Theorem lemmatized_views_map_the_helper (text : string) :
  let self := __init__ text in
  words self true = map (__lemmatize self) (words self false)
  ∧ sents self true = map (map (__lemmatize self)) (sents self false).
Proof.
  cbn zeta. unfold words, sents, __preprocess_text. split.
  - apply flat_map_map_each.
  - apply (flat_map_singleton_map _ (map (__lemmatize (__init__ text)))).
Qed.

(** X3. Lemmatizing a tagged view replaces the word of every pair by its
    lemma and keeps the tag: the tagger sees the surface forms, and the
    tags of the lemmatized view are those of the plain tagged view. *)
Theorem lemmatized_tagged_views_keep_the_tags (text : string) :
  let self := __init__ text in
  tagged_words self true
  = map (λ x, (__lemmatize self x.1, x.2)) (tagged_words self false)
  ∧ map snd (tagged_words self true) = map snd (tagged_words self false)
  ∧ map fst (tagged_words self true)
    = map (__lemmatize self) (map fst (tagged_words self false)).
Proof.
  cbn zeta.
  assert (Heq : tagged_words (__init__ text) true
    = map (λ x, (__lemmatize (__init__ text) x.1, x.2))
        (tagged_words (__init__ text) false)).
  { unfold tagged_words, __preprocess_text. apply flat_map_map_each. }
  split; [done|]. rewrite Heq, !map_map. split; by apply map_ext.
Qed.

(** X4. The sentence views yield one item per sentence of the splitter,
    also for a sentence that keeps no token. *)
Theorem one_sentence_per_split (text : string) (lemmatized : bool) :
  let self := __init__ text in
  length (sents self lemmatized) = length (sent_tokenize text)
  ∧ length (tagged_sents self lemmatized) = length (sent_tokenize text).
Proof.
  cbn zeta. unfold sents, tagged_sents, __preprocess_text, __init__.
  cbn [__text]. split; apply flat_map_singleton_length.
Qed.

(** X5. Every token of the plain views is non-empty and carries no
    leading or trailing whitespace, whatever the tokenizer returns. *)
Theorem plain_tokens_are_stripped_and_non_empty (text : string) :
  let self := __init__ text in
  Forall (λ word, PyStr.truthy word = true ∧ PyStr.strip word = word)
    (words self false)
  ∧ Forall (Forall (λ word, PyStr.truthy word = true ∧ PyStr.strip word = word))
      (sents self false).
Proof.
  cbn zeta.
  assert (Hsent : ∀ sent,
    Forall (λ word, PyStr.truthy word = true ∧ PyStr.strip word = word)
      (map PyStr.strip
         (List.filter (λ word, PyStr.truthy (PyStr.strip word))
            (word_tokenize sent)))).
  { intros sent. apply Forall_map, List.Forall_forall.
    intros word [_ Htruthy]%filter_In. split; [done|apply strip_idempotent]. }
  split.
  - unfold words, __preprocess_text. apply Forall_flat_map, Forall_forall.
    intros sent _. apply Hsent.
  - unfold sents, __preprocess_text. apply Forall_flat_map, Forall_forall.
    intros sent _. constructor; [apply Hsent|constructor].
Qed.

(** X6. With a tagger that returns one pair per token, the tagged views
    have the shape of the plain views: sentence by sentence the same
    number of items, and as many tagged words as words. *)
Theorem tagged_views_have_the_shape_of_plain_views (text : string)
    (lemmatized lemmatized' : bool) :
  tagger_keeps_length →
  let self := __init__ text in
  map length (tagged_sents self lemmatized) = map length (sents self lemmatized')
  ∧ length (tagged_words self lemmatized) = length (words self lemmatized').
Proof.
  intros Htag. cbn zeta. split.
  - unfold tagged_sents, sents, __preprocess_text.
    induction (sent_tokenize _) as [|sent l IH]; [done|].
    cbn [flat_map app map]. rewrite IH. f_equal.
    destruct lemmatized, lemmatized'; rewrite ?length_map, Htag, ?length_map; done.
  - rewrite tagged_words_length, <- (words_length_lemmatized _ lemmatized'); done.
Qed.

(** X7. With a tagger that pairs every token with a tag, the words of
    [tagged_words()] are [words()], with and without lemmatization. *)
Theorem tagged_words_carry_the_words (text : string) (lemmatized : bool) :
  tagger_keeps_words →
  let self := __init__ text in
  map fst (tagged_words self lemmatized) = words self lemmatized.
Proof.
  intros Htag. cbn zeta. unfold tagged_words, words, __preprocess_text.
  rewrite <- flat_map_map_each. apply flat_map_ext. intros sent.
  destruct lemmatized; [|apply Htag].
  rewrite map_map. cbn [fst]. rewrite <- (map_map fst). by rewrite Htag.
Qed.

(** ** Syllables *)

(** X8. [count_syllables] raises exactly on a word whose dictionary entry
    is malformed (no variant, or an empty phoneme code in the first
    variant), and what it raises is [IndexError]. *)
Theorem count_syllables_raises_on_malformed_entries_only (text word : string) :
  let self := __init__ text in
  (count_syllables self word = Raise IndexError ↔
     ∃ variants, p_dict !! PyStr.lower word = Some variants
                 ∧ entry_well_formed variants = false)
  ∧ (∀ e, count_syllables self word = Raise e → e = IndexError).
Proof.
  cbn zeta.
  assert (Hcases :
    (∃ n, count_syllables (__init__ text) word = Ok n)
    ∨ (count_syllables (__init__ text) word = Raise IndexError
       ∧ ∃ variants, p_dict !! PyStr.lower word = Some variants
                     ∧ entry_well_formed variants = false)).
  { destruct (p_dict !! PyStr.lower word) as [variants|] eqn:Hlook.
    - destruct variants as [|first rest].
      + right. split; [|by eexists].
        unfold count_syllables. by rewrite Hlook.
      + destruct (forallb PyStr.truthy first) eqn:Hfirst.
        * left. eexists. by apply (count_syllables_known _ _ first rest).
        * right. split; [|by eexists].
          unfold count_syllables. rewrite Hlook.
          cbn [first_item mbind result_bind].
          by rewrite (filter_phonemes_malformed first Hfirst).
    - left. eexists. by apply count_syllables_unknown. }
  destruct Hcases as [[n Hn]|[Hraise Hbad]]; rewrite ?Hn, ?Hraise.
  - split; [split|]; [done| |done].
    intros (variants & Hlook & Hbad). exfalso.
    destruct variants as [|first rest].
    + unfold count_syllables in Hn. by rewrite Hlook in Hn.
    + cbn [entry_well_formed] in Hbad.
      unfold count_syllables in Hn. rewrite Hlook in Hn.
      cbn [first_item mbind result_bind] in Hn.
      by rewrite (filter_phonemes_malformed first Hbad) in Hn.
  - split; [done|]. by intros e [= <-].
Qed.

(** X9. The syllable count is at most the number of units counted over:
    the characters of the word for a word outside the dictionary, the
    phonemes of the first variant for a word of the dictionary. *)
Theorem count_syllables_at_most_the_units (text word : string) :
  let self := __init__ text in
  (p_dict !! PyStr.lower word = None →
     ∃ n, count_syllables self word = Ok n
          ∧ 0 ≤ n ≤ Z.of_nat (String.length word))
  ∧ (∀ first rest, p_dict !! PyStr.lower word = Some (first :: rest) →
       forallb PyStr.truthy first = true →
       ∃ n, count_syllables self word = Ok n ∧ 0 ≤ n ≤ len first).
Proof.
  cbn zeta. split.
  - intros Hnone. eexists. split; [by apply count_syllables_unknown|].
    split; [apply len_nonneg|]. unfold len. apply inj_le.
    etrans; [apply List.filter_length_le|].
    by rewrite chars_length, lower_length.
  - intros first rest Hsome Hfirst. eexists.
    split; [by apply (count_syllables_known _ _ first rest)|].
    split; [apply len_nonneg|]. unfold len. apply inj_le, List.filter_length_le.
Qed.

End Views.

(** ** Reading ease *)
Section Scores.
Context {F : Type} `{PyFloat F} `{Nltk}.

(** X10. [calculate_sentence_reading_ease] never divides by zero: the test
    [if words] keeps the division away from a sentence without alphabetic
    tokens.  When the method raises, it raises [IndexError], and the
    dictionary has a malformed entry. *)
Theorem reading_ease_never_divides_by_zero (text : string) (e : exception) :
  let self := __init__ text in
  calculate_sentence_reading_ease self = Raise e →
  e = IndexError ∧ ¬ dict_well_formed p_dict.
Proof.
  cbn zeta. unfold calculate_sentence_reading_ease.
  rewrite reading_ease_loop. intros Hraise. split.
  - destruct (mapM _ _) as [scores|e'] eqn:Hscores; [done|].
    cbn [mbind result_bind] in Hraise. injection Hraise as <-.
    apply mapM_raises in Hscores as (alphabetic & _ & Hscore).
    rewrite sentence_score_unfold in Hscore.
    destruct (mapM (count_syllables _) alphabetic) as [syllables|e''] eqn:Hs;
      [done|].
    cbn [mbind result_bind] in Hscore. injection Hscore as <-.
    apply mapM_raises in Hs as (word & _ & Hword).
    destruct (p_dict !! PyStr.lower word) as [variants|] eqn:Hlook.
    + destruct variants as [|first rest].
      * unfold count_syllables in Hword. rewrite Hlook in Hword.
        by injection Hword as <-.
      * destruct (forallb PyStr.truthy first) eqn:Hfirst.
        -- by rewrite (count_syllables_known _ _ first rest) in Hword.
        -- unfold count_syllables in Hword. rewrite Hlook in Hword.
           cbn [first_item mbind result_bind] in Hword.
           rewrite (filter_phonemes_malformed first Hfirst) in Hword.
           by injection Hword as <-.
    + by rewrite count_syllables_unknown in Hword.
  - intros Hwf.
    destruct (mapM_sentence_score_total (__init__ text)
                (List.filter has_tokens
                   (map (List.filter PyStr.isalpha)
                      (sents (__init__ text) false))) Hwf) as [scores Hs].
    by rewrite Hs in Hraise.
Qed.

(** X11. The reading ease reads the alphabetic tokens only: two documents
    whose sentences keep the same alphabetic tokens, sentences without
    any left aside, have the same score (or raise the same exception). *)
Theorem reading_ease_reads_alphabetic_tokens_only (text text' : string) :
  List.filter has_tokens
    (map (List.filter PyStr.isalpha) (sents (__init__ text) false))
  = List.filter has_tokens
      (map (List.filter PyStr.isalpha) (sents (__init__ text') false)) →
  calculate_sentence_reading_ease (__init__ text)
  = calculate_sentence_reading_ease (__init__ text').
Proof.
  intros Hsame. unfold calculate_sentence_reading_ease.
  rewrite !reading_ease_loop, Hsame. reflexivity.
Qed.

(** X12. A document none of whose sentences has an alphabetic token
    scores [0.0], without consulting the dictionary. *)
Theorem reading_ease_without_alphabetic_tokens (text : string) :
  let self := __init__ text in
  Forall (λ sent, List.filter PyStr.isalpha sent = []) (sents self false) →
  calculate_sentence_reading_ease self = Ok (float_lit 0.0).
Proof.
  cbn zeta. intros Hnone. unfold calculate_sentence_reading_ease.
  rewrite reading_ease_loop.
  induction Hnone as [|sent l Hsent _ IH]; [done|].
  cbn [map List.filter]. rewrite Hsent. cbn [has_tokens]. apply IH.
Qed.

(** ** Shares of the words *)
Context `{!PyFloatOrder F}.

(** [round(a / b * scale, 3)] lies between [lo * scale] and [hi * scale]
    when [a / b] lies between the integers [lo] and [hi]. *)
Lemma rounded_share_bounds (a b lo hi scale : Z) :
  0 < b → lo * b ≤ a ≤ hi * b →
  0 < scale ≤ 2 ^ 53 →
  Z.abs lo ≤ 2 ^ 53 → Z.abs hi ≤ 2 ^ 53 →
  Z.abs (lo * scale) ≤ 2 ^ 53 → Z.abs (hi * scale) ≤ 2 ^ 53 →
  fle (float_of_int (lo * scale))
      (round_ndigits (fmul (truediv a b) (float_of_int scale)) 3)
  ∧ fle (round_ndigits (fmul (truediv a b) (float_of_int scale)) 3)
        (float_of_int (hi * scale)).
Proof.
  intros Hb [Hlo Hhi] Hscale Hlo1 Hhi1 Hlo2 Hhi2.
  assert (Hscale' : Z.abs scale ≤ 2 ^ 53) by lia.
  split.
  - apply (fle_trans _ (round_ndigits (float_of_int (lo * scale)) 3));
      [by apply round_int_ge|].
    apply round_mono.
    apply (fle_trans _ (fmul (float_of_int lo) (float_of_int scale))).
    + by apply fmul_int_exact_ge.
    + apply fmul_int_mono; [done|]. by apply int_le_truediv.
  - apply (fle_trans _ (round_ndigits (float_of_int (hi * scale)) 3));
      [|by apply round_int_le].
    apply round_mono.
    apply (fle_trans _ (fmul (float_of_int hi) (float_of_int scale))).
    + apply fmul_int_mono; [done|]. by apply truediv_le_int.
    + by apply fmul_int_exact_le.
Qed.

Lemma words_len_pos (self : TextClassifier) (lemmatized : bool) :
  words self false ≠ [] → 0 < len (words self lemmatized).
Proof.
  intros Hwords. unfold len. rewrite words_length_lemmatized.
  destruct (words self false); [done|]. cbn [length]. lia.
Qed.

(** X13. On a document with at least one word the word frequency is
    returned and lies between 0 and 1000, for every set of words, in any
    arithmetic whose rounding is monotone and exact on small integers. *)
Theorem words_frequency_between_0_and_1000
    (text : string) (words_to_search : gset string) :
  let self := __init__ text in
  words self false ≠ [] →
  ∃ frequency,
    calculate_words_frequency self words_to_search = Ok frequency
    ∧ fle (float_of_int 0) frequency ∧ fle frequency (float_of_int 1000).
Proof.
  cbn zeta. intros Hwords. unfold calculate_words_frequency. cbn zeta.
  pose proof (words_len_pos _ false Hwords) as Htotal.
  set (matching := List.filter _ (words (__init__ text) false)).
  assert (Hmatching : 0 ≤ len matching ≤ len (words (__init__ text) false)).
  { split; [apply len_nonneg|]. apply inj_le, List.filter_length_le. }
  rewrite int_truediv_nonzero by lia. cbn [mbind result_bind].
  eexists. split; [reflexivity|].
  apply (rounded_share_bounds _ _ 0 1 1000);
    change (2 ^ 53) with 9007199254740992; lia.
Qed.

(** X14. The lexical density of a document with at least one word is 0
    when no tagged word has a tag of the set, and 100 when every tagged
    word has one (equal in the order of the arithmetic, both ways). *)
Theorem lexical_density_extremes
    (text : string) (tags_to_search : gset string) :
  tagger_keeps_length →
  let self := __init__ text in
  words self false ≠ [] →
  (Forall (λ tagged, tagged.2 ∉ tags_to_search) (tagged_words self false) →
     ∃ density,
       calculate_lexical_density_by_tags self tags_to_search = Ok density
       ∧ fle density (float_of_int 0) ∧ fle (float_of_int 0) density)
  ∧ (Forall (λ tagged, tagged.2 ∈ tags_to_search) (tagged_words self false) →
     ∃ density,
       calculate_lexical_density_by_tags self tags_to_search = Ok density
       ∧ fle density (float_of_int 100) ∧ fle (float_of_int 100) density).
Proof.
  intros Htag. cbn zeta. intros Hwords.
  assert (Htotal : 0 < len (tagged_words (__init__ text) false)).
  { unfold len. rewrite tagged_words_length by done.
    destruct (words (__init__ text) false); [done|]. cbn [length]. lia. }
  unfold calculate_lexical_density_by_tags. cbn zeta.
  split; intros Hall.
  - rewrite filter_none.
    2:{ eapply Forall_impl; [exact Hall|]. intros [word tag] Hout.
        by apply bool_decide_eq_false. }
    rewrite int_truediv_nonzero by lia. cbn [mbind result_bind].
    eexists. split; [reflexivity|].
    apply and_comm, (rounded_share_bounds _ _ 0 0 100);
      change (len []) with 0; change (2 ^ 53) with 9007199254740992; lia.
  - rewrite filter_all.
    2:{ eapply Forall_impl; [exact Hall|]. intros [word tag] Hin.
        by apply bool_decide_eq_true. }
    rewrite int_truediv_nonzero by lia. cbn [mbind result_bind].
    eexists. split; [reflexivity|].
    apply and_comm, (rounded_share_bounds _ _ 1 1 100);
      change (2 ^ 53) with 9007199254740992; lia.
Qed.

(** X15. On a document with at least one word the type-token ratio is
    returned and lies between 0 and 1: the distinct lower-cased lemmas
    are at most as many as the lemmas. *)
Theorem type_token_ratio_between_0_and_1 (text : string) :
  let self := __init__ text in
  words self false ≠ [] →
  ∃ ratio,
    calculate_type_token_ratio self = Ok ratio
    ∧ fle (float_of_int 0) ratio ∧ fle ratio (float_of_int 1).
Proof.
  cbn zeta. intros Hwords. unfold calculate_type_token_ratio. cbn zeta.
  set (word_list := map PyStr.lower (words (__init__ text) true)).
  assert (Htotal : 0 < len word_list).
  { unfold len, word_list. rewrite length_map.
    apply (words_len_pos _ true Hwords). }
  assert (Hdistinct : len (elements (list_to_set word_list : gset string))
                      ≤ len word_list)
    by apply inj_le, distinct_count_le.
  pose proof (len_nonneg (elements (list_to_set word_list : gset string))).
  rewrite int_truediv_nonzero by lia. eexists. split; [reflexivity|].
  split; [apply int_le_truediv|apply truediv_le_int]; lia.
Qed.

(** X16. The type-token ratio is 1 (in the order of the arithmetic, both
    ways) on a document with at least one word whose lower-cased lemmas
    are pairwise distinct. *)
Theorem type_token_ratio_is_1_without_repeats (text : string) :
  let self := __init__ text in
  words self false ≠ [] →
  NoDup (map PyStr.lower (words self true)) →
  ∃ ratio,
    calculate_type_token_ratio self = Ok ratio
    ∧ fle ratio (float_of_int 1) ∧ fle (float_of_int 1) ratio.
Proof.
  cbn zeta. intros Hwords Hdistinct. unfold calculate_type_token_ratio. cbn zeta.
  set (word_list := map PyStr.lower (words (__init__ text) true)) in *.
  assert (Htotal : 0 < len word_list).
  { unfold len, word_list. rewrite length_map.
    apply (words_len_pos _ true Hwords). }
  unfold len at 1. rewrite (distinct_count_NoDup word_list Hdistinct).
  fold (len word_list).
  rewrite int_truediv_nonzero by lia. eexists. split; [reflexivity|].
  split; [apply truediv_le_int|apply int_le_truediv]; lia.
Qed.

End Scores.

(** ** The further properties on the fixture resources *)

Lemma fixture_tagger_keeps_words : @tagger_keeps_words Fixture.nltk.
Proof.
  intros tokens. cbn [pos_tag Fixture.nltk]. rewrite map_map. apply map_id.
Qed.

Lemma tagged_views_have_the_shape_of_plain_views_witness :
  let self := @__init__ Fixture.nltk "The cats are running. Hello!" in
  map length (@tagged_sents Fixture.nltk self true)
  = map length (@sents Fixture.nltk self false)
  ∧ length (@tagged_words Fixture.nltk self true)
    = length (@words Fixture.nltk self false).
Proof.
  apply (@tagged_views_have_the_shape_of_plain_views Fixture.nltk
           "The cats are running. Hello!" true false).
  exact fixture_tagger_keeps_length.
Defined.

Lemma tagged_words_carry_the_words_witness :
  let self := @__init__ Fixture.nltk "The cats are running." in
  map fst (@tagged_words Fixture.nltk self true) = @words Fixture.nltk self true.
Proof.
  apply (@tagged_words_carry_the_words Fixture.nltk "The cats are running." true).
  exact fixture_tagger_keeps_words.
Defined.

Lemma count_syllables_raises_on_malformed_entries_only_witness :
  @count_syllables Fixture.nltk_with_malformed_dict
    (@__init__ Fixture.nltk_with_malformed_dict "") "Ghost" = Raise IndexError
  ∧ @count_syllables Fixture.nltk_with_malformed_dict
      (@__init__ Fixture.nltk_with_malformed_dict "") "hm" = Raise IndexError.
Proof.
  split.
  - apply (proj1 (@count_syllables_raises_on_malformed_entries_only
                    Fixture.nltk_with_malformed_dict "" "Ghost")).
    exists []. split; vm_compute; reflexivity.
  - apply (proj1 (@count_syllables_raises_on_malformed_entries_only
                    Fixture.nltk_with_malformed_dict "" "hm")).
    exists [["HH"; ""; "M"]]. split; vm_compute; reflexivity.
Defined.

Lemma count_syllables_at_most_the_units_witness :
  (∃ n, @count_syllables Fixture.nltk (@__init__ Fixture.nltk "") "Rhythm" = Ok n
        ∧ 0 ≤ n ≤ 6)
  ∧ (∃ n, @count_syllables Fixture.nltk (@__init__ Fixture.nltk "") "cat" = Ok n
          ∧ 0 ≤ n ≤ 3).
Proof.
  split.
  - apply (proj1 (@count_syllables_at_most_the_units Fixture.nltk "" "Rhythm")).
    vm_compute. reflexivity.
  - apply (proj2 (@count_syllables_at_most_the_units Fixture.nltk "" "cat")
             ["K"; "AE1"; "T"] []); vm_compute; reflexivity.
Defined.

Lemma reading_ease_never_divides_by_zero_witness :
  IndexError = IndexError
  ∧ ¬ dict_well_formed (@p_dict Fixture.nltk_with_malformed_dict).
Proof.
  apply (@reading_ease_never_divides_by_zero float Binary64.binary64
           Fixture.nltk_with_malformed_dict "The ghost sat." IndexError).
  vm_compute. reflexivity.
Defined.

Lemma reading_ease_reads_alphabetic_tokens_only_witness :
  @calculate_sentence_reading_ease float Binary64.binary64 Fixture.nltk
    (@__init__ Fixture.nltk "The cat sat. 123 !? Hello.")
  = @calculate_sentence_reading_ease float Binary64.binary64 Fixture.nltk
      (@__init__ Fixture.nltk "The, cat (sat)! Hello 42?").
Proof.
  apply (@reading_ease_reads_alphabetic_tokens_only float Binary64.binary64
           Fixture.nltk).
  vm_compute. reflexivity.
Defined.

Lemma reading_ease_without_alphabetic_tokens_witness :
  @calculate_sentence_reading_ease float Binary64.binary64 Fixture.nltk
    (@__init__ Fixture.nltk "123, 456! 7 - 8?")
  = Ok (Binary64.literal 0.0).
Proof.
  apply (@reading_ease_without_alphabetic_tokens float Binary64.binary64
           Fixture.nltk "123, 456! 7 - 8?").
  vm_compute. repeat constructor.
Defined.

Lemma words_frequency_between_0_and_1000_witness :
  ∃ frequency : Q,
    @calculate_words_frequency Q Exact.exact Fixture.nltk
      (@__init__ Fixture.nltk "The cats are running.") {[ "cats"; "dogs" ]}
    = Ok frequency
    ∧ (0 <= frequency)%Q ∧ (frequency <= 1000)%Q.
Proof.
  apply (@words_frequency_between_0_and_1000 Q Exact.exact Fixture.nltk
           ExactOrder.exact_order "The cats are running." {[ "cats"; "dogs" ]}).
  vm_compute. discriminate.
Defined.

Lemma lexical_density_extremes_witness :
  (∃ density : Q,
     @calculate_lexical_density_by_tags Q Exact.exact Fixture.nltk
       (@__init__ Fixture.nltk "Cats run.") {[ "JJ" ]} = Ok density
     ∧ (density <= 0)%Q ∧ (0 <= density)%Q)
  ∧ (∃ density : Q,
       @calculate_lexical_density_by_tags Q Exact.exact Fixture.nltk
         (@__init__ Fixture.nltk "Cats run.") {[ "NNS"; "VBP"; "." ]}
       = Ok density
       ∧ (density <= 100)%Q ∧ (100 <= density)%Q).
Proof.
  split.
  - apply (proj1 (@lexical_density_extremes Q Exact.exact Fixture.nltk
                    ExactOrder.exact_order "Cats run." {[ "JJ" ]}
                    fixture_tagger_keeps_length ltac:(vm_compute; discriminate))).
    vm_compute. repeat constructor; by apply (bool_decide_unpack _).
  - apply (proj2 (@lexical_density_extremes Q Exact.exact Fixture.nltk
                    ExactOrder.exact_order "Cats run." {[ "NNS"; "VBP"; "." ]}
                    fixture_tagger_keeps_length ltac:(vm_compute; discriminate))).
    vm_compute. repeat constructor; by apply (bool_decide_unpack _).
Defined.

Lemma type_token_ratio_between_0_and_1_witness :
  ∃ ratio : Q,
    @calculate_type_token_ratio Q Exact.exact Fixture.nltk
      (@__init__ Fixture.nltk "The cats are running. The cat runs.")
    = Ok ratio
    ∧ (0 <= ratio)%Q ∧ (ratio <= 1)%Q.
Proof.
  apply (@type_token_ratio_between_0_and_1 Q Exact.exact Fixture.nltk
           ExactOrder.exact_order "The cats are running. The cat runs.").
  vm_compute. discriminate.
Defined.

Lemma type_token_ratio_is_1_without_repeats_witness :
  ∃ ratio : Q,
    @calculate_type_token_ratio Q Exact.exact Fixture.nltk
      (@__init__ Fixture.nltk "Cats run. Dogs jump!") = Ok ratio
    ∧ (ratio <= 1)%Q ∧ (1 <= ratio)%Q.
Proof.
  apply (@type_token_ratio_is_1_without_repeats Q Exact.exact Fixture.nltk
           ExactOrder.exact_order "Cats run. Dogs jump!").
  - vm_compute. discriminate.
  - apply (bool_decide_unpack _). vm_compute. reflexivity.
Defined.
